(** * Bootstrap orchestrator of the CLI: packages/cli/src/gemini.tsx

    A shallow embedding of the entry point of the command-line client:
    the DNS-order validator, the heap-size calculator, the stdin injector
    and the control flow of [main] (relaunch logic, sandbox hand-off,
    startup tasks and mode dispatch).

    Effects are modelled by a small process monad: a computation emits
    the list of observable events it performs, threads the number of
    children spawned so far, and ends in one of three ways: it returns a
    value, it calls [process.exit], or it is still waiting. *)

From Stdlib Require Import ZArith QArith Qround DecimalString.
From Stdlib Require Import DecimalPos DecimalZ.
From stdpp Require Import base list strings.

(* ================================================================== *)
(** ** JavaScript value conventions used by the source *)
(* ================================================================== *)

Module JS.

(** [if (s)] on a string: the empty string is falsy. *)
Definition truthy_string (s : string) : bool :=
  negb (String.eqb s EmptyString).

(** [if (o)] on [string | undefined]. *)
Definition truthy_opt_string (o : option string) : bool :=
  match o with
  | Some s => truthy_string s
  | None => false
  end.

(** [if (o)] on [boolean | undefined]. *)
Definition truthy_opt_bool (o : option bool) : bool :=
  match o with
  | Some b => b
  | None => false
  end.

(** The double-quote character of the template literals. *)
Definition dquote : string := String (Ascii.ascii_of_nat 34) EmptyString.

(** The two characters written [\n\n] in the template literals. *)
Definition nl : string := String (Ascii.ascii_of_nat 10) EmptyString.
Definition nlnl : string := nl +:+ nl.

(** [`${n}`] for an integral number (below 1e21, where JavaScript
    prints plain decimal digits). *)
Definition number_to_string (n : Z) : string :=
  NilZero.string_of_int (Z.to_int n).

(** [n.toFixed(2)] for an integral number. *)
Definition toFixed2 (n : Z) : string := number_to_string n +:+ ".00".

(** [Array.prototype.findIndex]: index of the first element that
    satisfies the predicate, [-1] when there is none. *)
Definition findIndex {A} (P : A → Prop) `{!∀ x, Decision (P x)}
    (l : list A) : Z :=
  match list_find P l with
  | Some (i, _) => Z.of_nat i
  | None => (-1)%Z
  end.

(** [Array.prototype.push] with two arguments. *)
Definition push2 {A} (l : list A) (x y : A) : list A := l ++ [x; y].

End JS.

(* ================================================================== *)
(** ** The process monad *)
(* ================================================================== *)

(** [DnsResolutionOrder] of config/settings.ts, as used here. *)
Inductive DnsResolutionOrder := ipv4first | verbatim.

Definition DnsResolutionOrder_to_string (o : DnsResolutionOrder) : string :=
  match o with
  | ipv4first => "ipv4first"
  | verbatim => "verbatim"
  end.

(** The optional sandbox description returned by [loadSandboxConfig]. *)
Record SandboxConfig := mkSandboxConfig {
  sandbox_command : string;
  sandbox_image : string
}.

(** Observable actions of the entry point, in the order they happen. *)
Inductive Event :=
| EvSetupUnhandledRejectionHandler
| EvLoadSettings
| EvMigrateDeprecatedSettings
| EvCleanupCheckpoints
| EvRandomUUID
| EvParseArguments
| EvConsoleError (args : list string)
| EvConsoleWarn (msg : string)
| EvConsoleDebug (msg : string)
| EvConsoleLog (args : list string)
| EvProcessExit (code : Z)
| EvConsolePatch
| EvRegisterCleanup (what : string)
| EvDnsSetDefaultResultOrder (order : DnsResolutionOrder)
| EvLoadCustomThemes
| EvSetActiveTheme (name : string)
| EvOsTotalmem
| EvGetHeapStatistics
| EvLoadSandboxConfig
| EvLoadCliConfig (extensions : list string)
| EvValidateAuthMethod (authType : string)
| EvRefreshAuth (authType : string)
| EvReadStdin
| EvStartSandbox (cfg : SandboxConfig) (memoryArgs args : list string)
| EvSpawnChild (nodeArgs scriptArgs : list string)
| EvLoadExtensions
| EvSetRawMode (raw : bool)
| EvOnSignal (signal : string)
| EvDetectAndEnableKittyProtocol
| EvKittyDetectionResolved (enabled : bool)
| EvSetMaxSizedBoxDebugging (debug : bool)
| EvInitializeApp
| EvGetOauthClient (authType : string)
| EvRunZedIntegration
| EvGetStartupWarnings
| EvGetUserStartupWarnings
| EvGetCliVersion
| EvSetWindowTitle
| EvRender
| EvCheckForUpdates
| EvConfigInitialize
| EvLogUserPrompt (prompt prompt_id : string)
| EvValidateNonInteractiveAuth
| EvRunNonInteractive (input prompt_id : string)
| EvRunExitCleanup.

(** How a computation ends. *)
Inductive Outcome (A : Type) :=
| Ret (a : A)          (* normal completion *)
| Exit (code : Z)      (* [process.exit(code)]: nothing after it runs *)
| Pending.             (* still awaiting: a deferred result that never
                          resolves, or a relaunch loop that has not ended *)
Arguments Ret {A} a.
Arguments Exit {A} code.
Arguments Pending {A}.

Record Run (A : Type) := mkRun {
  outcome : Outcome A;
  events : list Event;
  spawned : nat
}.
Arguments mkRun {A} _ _ _.
Arguments outcome {A} _.
Arguments events {A} _.
Arguments spawned {A} _.

(** A computation takes the number of children spawned so far. *)
Definition Proc (A : Type) : Type := nat → Run A.

Definition ret {A} (a : A) : Proc A := λ n, mkRun (Ret a) [] n.

Definition bind {A B} (m : Proc A) (k : A → Proc B) : Proc B := λ n,
  let r := m n in
  match outcome r with
  | Ret a =>
      let r' := k a (spawned r) in
      mkRun (outcome r') (events r ++ events r') (spawned r')
  | Exit c => mkRun (Exit c) (events r) (spawned r)
  | Pending => mkRun Pending (events r) (spawned r)
  end.

#[global] Instance proc_ret : MRet Proc := @ret.
#[global] Instance proc_bind : MBind Proc := λ A B k m, bind m k.

(** One observable action. *)
Definition emit (e : Event) : Proc unit := λ n, mkRun (Ret tt) [e] n.

(** [process.exit(code)]. *)
Definition process_exit {A} (code : Z) : Proc A :=
  λ n, mkRun (Exit code) [EvProcessExit code] n.

(** Awaiting something that never settles. *)
Definition never {A} : Proc A := λ n, mkRun Pending [] n.

Definition when (b : bool) (m : Proc unit) : Proc unit :=
  if b then m else ret tt.

(** A process start: no child has been spawned yet. *)
Definition start {A} (m : Proc A) : Run A := m 0%nat.

(* ================================================================== *)
(** ** validateDnsResolutionOrder (lines 71-86) *)
(* ================================================================== *)

Definition dns_warning (order : string) : string :=
  "Invalid value for dnsResolutionOrder in settings: " +:+ JS.dquote
  +:+ order +:+ JS.dquote +:+ ". Using default " +:+ JS.dquote
  +:+ DnsResolutionOrder_to_string ipv4first +:+ JS.dquote +:+ ".".

Definition validateDnsResolutionOrder (order : option string)
  : Proc DnsResolutionOrder :=
  let defaultValue := ipv4first in
  match order with
  | None => ret defaultValue
  | Some s =>
      if String.eqb s "ipv4first" then ret ipv4first
      else if String.eqb s "verbatim" then ret verbatim
      else emit (EvConsoleWarn (dns_warning s));; ret defaultValue
  end.

(* ================================================================== *)
(** ** Everything the entry point reads from outside *)
(* ================================================================== *)

(** One process start: the environment, the parsed command line, the
    merged settings and the answers of the collaborators that [main]
    calls but does not define. *)
Record World := mkWorld {
  (* process *)
  env_SANDBOX : option string;
  env_GEMINI_CLI_NO_RELAUNCH : option string;
  process_argv : list string;
  stdin_isTTY : bool;
  stdin_isRaw : bool;
  stdin_text : string;                  (* what [readStdin()] yields *)
  os_totalmem : Z;                      (* bytes *)
  heap_size_limit : Z;                  (* bytes *)
  sessionId : string;                   (* [randomUUID()] *)
  random_prompt_id : string;            (* [Math.random().toString(16).slice(2)] *)
  (* parsed arguments *)
  argv_promptInteractive : option string;
  argv_isDebugMode : bool;              (* [cliConfig.isDebugMode(argv)] *)
  (* settings.merged *)
  advanced_dnsResolutionOrder : option string;
  advanced_autoConfigureMemory : option bool;
  ui_theme : option string;
  ui_hideWindowTitle : option bool;
  auth_selectedType : option string;
  auth_useExternal : option bool;
  (* collaborators *)
  theme_setActiveTheme : string → bool;
  sandboxConfig : option SandboxConfig; (* [loadSandboxConfig] *)
  validateAuthMethod : string → option string;   (* [null] or a message *)
  refreshAuth_throws : string → option string;   (* the error thrown, if any *)
  child_exit : nat → Z;                 (* exit code of the n-th child *)
  extensions : list string;             (* names of the loaded extensions *)
  kitty_detection : option bool;        (* what the detection resolves to *)
  (* the finalized configuration object *)
  config_getListExtensions : bool;
  config_isInteractive : bool;
  config_isBrowserLaunchSuppressed : bool;
  config_getExperimentalZedIntegration : bool;
  config_getQuestion : string;
  config_getDebugMode : bool
}.

(** Spawning a child and waiting for it: the launcher's action is
    recorded and the child's exit code comes back. *)
Definition spawn (w : World) (e : Event) : Proc Z :=
  λ n, mkRun (Ret (child_exit w n)) [e] (S n).

(** [start_sandbox] of utils/sandbox.ts, seen from its caller. *)
Definition start_sandbox (w : World) (cfg : SandboxConfig)
    (memoryArgs args : list string) : Proc Z :=
  spawn w (EvStartSandbox cfg memoryArgs args).

Fixpoint for_each {A} (f : A → Proc unit) (l : list A) : Proc unit :=
  match l with
  | [] => ret tt
  | x :: l' => f x;; for_each f l'
  end.

(* ================================================================== *)
(** ** getNodeMemoryArgs (lines 94-123) *)
(* ================================================================== *)

(** JavaScript numbers are doubles. [os.totalmem()] and
    [heap_size_limit] are byte counts below 2^53, and dividing by 1024
    or multiplying by 0.5 only changes the exponent, so the quotients
    are exact and rational arithmetic computes the same values. *)
Definition totalMemoryMB (w : World) : Q :=
  (inject_Z (os_totalmem w) / inject_Z (1024 * 1024))%Q.

Definition currentMaxOldSpaceSizeMb (w : World) : Z :=
  Qfloor (inject_Z (heap_size_limit w) / inject_Z 1024 / inject_Z 1024)%Q.

Definition targetMaxOldSpaceSizeInMB (w : World) : Z :=
  Qfloor (totalMemoryMB w * (1 # 2))%Q.

Definition max_old_space_size_flag (mb : Z) : string :=
  "--max-old-space-size=" +:+ JS.number_to_string mb.

Definition getNodeMemoryArgs (w : World) (isDebugMode : bool)
  : Proc (list string) :=
  emit EvOsTotalmem;;
  emit EvGetHeapStatistics;;
  when isDebugMode
    (emit (EvConsoleDebug ("Current heap size "
       +:+ JS.toFixed2 (currentMaxOldSpaceSizeMb w) +:+ " MB")));;
  if JS.truthy_opt_string (env_GEMINI_CLI_NO_RELAUNCH w) then ret []
  else if (targetMaxOldSpaceSizeInMB w >? currentMaxOldSpaceSizeMb w)%Z then
    when isDebugMode
      (emit (EvConsoleDebug ("Need to relaunch with more memory: "
         +:+ JS.toFixed2 (targetMaxOldSpaceSizeInMB w) +:+ " MB")));;
    ret [max_old_space_size_flag (targetMaxOldSpaceSizeInMB w)]
  else ret [].

(* ================================================================== *)
(** ** injectStdinIntoArgs (lines 338-359) *)
(* ================================================================== *)

Definition is_prompt_flag (arg : string) : Prop :=
  arg = "--prompt" ∨ arg = "-p".

#[global] Instance is_prompt_flag_dec arg : Decision (is_prompt_flag arg).
Proof. unfold is_prompt_flag. apply _. Defined.

Definition injectStdinIntoArgs (args : list string)
    (stdinData : option string) : list string :=
  let finalArgs := args in
  match stdinData with
  | Some text =>
      if JS.truthy_string text then
        let promptIndex := JS.findIndex is_prompt_flag finalArgs in
        if ((promptIndex >? -1)
            && (Z.of_nat (length finalArgs) >? promptIndex + 1))%Z
        then
          let i := Z.to_nat (promptIndex + 1) in
          <[i := text +:+ JS.nlnl +:+ (finalArgs !!! i)]> finalArgs
        else JS.push2 finalArgs "--prompt" text
      else finalArgs
  | None => finalArgs
  end.

(* ================================================================== *)
(** ** The relaunch helpers imported from utils/relaunch.ts *)
(* ================================================================== *)

Module Relaunch.
Section Protocol.

(** The reserved exit code by which a child asks to be spawned again. *)
Variable RELAUNCH_EXIT_CODE : Z.

(** Modelled from the spec: [relaunchOnExitCode], whose file
    utils/relaunch.ts is not among the sources. Section 4.4: given a
    launcher, repeatedly spawn, wait for exit and inspect the exit
    code; on the reserved sentinel invoke the launcher again, and
    propagate any other exit code as this process's own exit status,
    which ends the loop. The loop has no retry bound; [fuel] bounds
    the number of spawns the model follows. *)
Fixpoint relaunchOnExitCode (fuel : nat) (runner : Proc Z) : Proc unit :=
  match fuel with
  | O => never
  | S fuel' =>
      exitCode ← runner;
      if (exitCode =? RELAUNCH_EXIT_CODE)%Z
      then relaunchOnExitCode fuel' runner
      else process_exit exitCode
  end.

(** Modelled from the spec: [relaunchAppInChildProcess], also of
    utils/relaunch.ts. Section 4.2: with no sandbox configuration a
    plain child copy of the current process is spawned (same argv,
    only the memory flags applied) and driven by the protocol of
    section 4.4. *)
Definition relaunchAppInChildProcess (w : World) (fuel : nat)
    (additionalNodeArgs additionalScriptArgs : list string) : Proc unit :=
  relaunchOnExitCode fuel
    (spawn w (EvSpawnChild additionalNodeArgs additionalScriptArgs)).

End Protocol.
End Relaunch.

(* ================================================================== *)
(** ** startInteractiveUI (lines 164-231) *)
(* ================================================================== *)

Definition startInteractiveUI (w : World) : Proc unit :=
  emit EvGetCliVersion;;
  (* setWindowTitle, lines 526-535 *)
  when (negb (JS.truthy_opt_bool (ui_hideWindowTitle w)))
    (emit EvSetWindowTitle;; emit (EvOnSignal "exit"));;
  emit EvRender;;
  emit EvCheckForUpdates;;
  emit (EvRegisterCleanup "instance.unmount").

(* ================================================================== *)
(** ** main (lines 241-519) *)
(* ================================================================== *)

Definition prompt_interactive_error : string :=
  "Error: The --prompt-interactive flag cannot be used when input is piped from stdin.".

Definition no_input_error : string :=
  "No input provided via stdin. Input can be provided by piping data into gemini or using the --prompt option.".

Definition theme_warning (theme : string) : string :=
  "Warning: Theme " +:+ JS.dquote +:+ theme +:+ JS.dquote +:+ " not found.".

(** A deferred result: [None] is [undefined], [Some None] a promise
    that never settles, [Some (Some b)] one that resolves to [b]. *)
Definition Deferred (A : Type) : Type := option (option A).

Definition await_kitty (p : Deferred bool) : Proc unit :=
  match p with
  | None => ret tt
  | Some None => never
  | Some (Some enabled) => emit (EvKittyDetectionResolved enabled)
  end.

Section Main.

(** [AuthType.LOGIN_WITH_GOOGLE] of the core package. *)
Variable LOGIN_WITH_GOOGLE : string.

(** The two helpers of utils/relaunch.ts, as [main] calls them. *)
Variable relaunchOnExitCode : Proc Z → Proc unit.
Variable relaunchAppInChildProcess : list string → list string → Proc unit.

(** Lines 242-258: settings, arguments and the flag-combination guard. *)
Definition main_arguments (w : World) : Proc unit :=
  emit EvSetupUnhandledRejectionHandler;;
  emit EvLoadSettings;;
  emit EvMigrateDeprecatedSettings;;
  emit EvCleanupCheckpoints;;
  emit EvRandomUUID;;
  emit EvParseArguments;;
  if JS.truthy_opt_string (argv_promptInteractive w) && negb (stdin_isTTY w)
  then emit (EvConsoleError [prompt_interactive_error]);; process_exit 1
  else ret tt.

(** Lines 260-284: console patch, DNS order and themes. *)
Definition main_configure (w : World) : Proc unit :=
  emit EvConsolePatch;;
  emit (EvRegisterCleanup "consolePatcher.cleanup");;
  order ← validateDnsResolutionOrder (advanced_dnsResolutionOrder w);
  emit (EvDnsSetDefaultResultOrder order);;
  emit EvLoadCustomThemes;;
  match ui_theme w with
  | Some theme =>
      if JS.truthy_string theme then
        emit (EvSetActiveTheme theme);;
        when (negb (theme_setActiveTheme w theme))
          (emit (EvConsoleWarn (theme_warning theme)))
      else ret tt
  | None => ret tt
  end.

(** Lines 309-330: the [try]/[catch] around validation and refresh.
    The [try] body yields the error it throws, if any. *)
Definition main_authenticate (w : World) : Proc unit :=
  match auth_selectedType w with
  | Some selectedType =>
      if JS.truthy_string selectedType
         && negb (JS.truthy_opt_bool (auth_useExternal w))
      then
        thrown ← (emit (EvValidateAuthMethod selectedType);;
                  let err := validateAuthMethod w selectedType in
                  if JS.truthy_opt_string err then ret err
                  else emit (EvRefreshAuth selectedType);;
                       ret (refreshAuth_throws w selectedType));
        match thrown with
        | Some err =>
            emit (EvConsoleError ["Error authenticating:"; err]);;
            process_exit 1
        | None => ret tt
        end
      else ret tt
  | None => ret tt
  end.

(** Lines 300-367: the sandbox branch. *)
Definition main_sandbox (w : World) (cfg : SandboxConfig)
    (memoryArgs : list string) : Proc unit :=
  emit (EvLoadCliConfig []);;
  main_authenticate w;;
  stdinData ← (if negb (stdin_isTTY w)
               then emit EvReadStdin;; ret (stdin_text w)
               else ret EmptyString);
  let sandboxArgs := injectStdinIntoArgs (process_argv w) (Some stdinData) in
  relaunchOnExitCode (start_sandbox w cfg memoryArgs sandboxArgs);;
  process_exit 0.

(** Lines 289-374: the body of [if (!process.env['SANDBOX'])]. *)
Definition main_relaunch (w : World) : Proc unit :=
  memoryArgs ← (if JS.truthy_opt_bool (advanced_autoConfigureMemory w)
                then getNodeMemoryArgs w (argv_isDebugMode w)
                else ret []);
  emit EvLoadSandboxConfig;;
  match sandboxConfig w with
  | Some cfg => main_sandbox w cfg memoryArgs
  | None => relaunchAppInChildProcess memoryArgs []
  end.

(** Lines 472-517: the non-interactive path. *)
Definition main_nonInteractive (w : World) (question : string) : Proc unit :=
  emit EvConfigInitialize;;
  input ← (if negb (stdin_isTTY w) then
             emit EvReadStdin;;
             let stdinData := stdin_text w in
             if JS.truthy_string stdinData
             then ret (stdinData +:+ JS.nlnl +:+ question)
             else ret question
           else ret question);
  if negb (JS.truthy_string input) then
    emit (EvConsoleError [no_input_error]);; process_exit 1
  else
    let prompt_id := random_prompt_id w in
    emit (EvLogUserPrompt input prompt_id);;
    emit EvValidateNonInteractiveAuth;;
    when (config_getDebugMode w)
      (emit (EvConsoleLog ["Session ID: %s"; sessionId w]));;
    emit (EvRunNonInteractive input prompt_id);;
    emit EvRunExitCleanup;;
    process_exit 0.

(** Lines 381-518: the block after the relaunch logic (mode dispatch). *)
Definition main_dispatch (w : World) : Proc unit :=
  emit EvLoadExtensions;;
  emit (EvLoadCliConfig (extensions w));;
  (if config_getListExtensions w then
     emit (EvConsoleLog ["Installed extensions:"]);;
     for_each (λ name, emit (EvConsoleLog ["- " +:+ name])) (extensions w);;
     process_exit 0
   else ret tt);;
  let wasRaw := stdin_isRaw w in
  kittyProtocolDetectionComplete ←
    (if config_isInteractive w && negb wasRaw && stdin_isTTY w then
       emit (EvSetRawMode true);;
       emit (EvOnSignal "SIGTERM");;
       emit (EvOnSignal "SIGINT");;
       emit EvDetectAndEnableKittyProtocol;;
       ret (Some (kitty_detection w))
     else ret None);
  emit (EvSetMaxSizedBoxDebugging (argv_isDebugMode w));;
  emit EvInitializeApp;;
  when (bool_decide (auth_selectedType w = Some LOGIN_WITH_GOOGLE)
        && config_isBrowserLaunchSuppressed w)
    (emit (EvGetOauthClient LOGIN_WITH_GOOGLE));;
  if config_getExperimentalZedIntegration w then emit EvRunZedIntegration
  else
    let input := config_getQuestion w in
    emit EvGetStartupWarnings;;
    emit EvGetUserStartupWarnings;;
    if config_isInteractive w then
      await_kitty kittyProtocolDetectionComplete;;
      startInteractiveUI w
    else main_nonInteractive w input.

(** Lines 242-374: everything up to the end of the relaunch logic. *)
Definition main_bootstrap (w : World) : Proc unit :=
  main_arguments w;;
  main_configure w;;
  if negb (JS.truthy_opt_string (env_SANDBOX w))
  then main_relaunch w
  else ret tt.

Definition main (w : World) : Proc unit :=
  main_bootstrap w;;
  main_dispatch w.

End Main.

(** The entry point with the relaunch helpers of the specification. *)
Definition program (LOGIN_WITH_GOOGLE : string) (RELAUNCH_EXIT_CODE : Z)
    (fuel : nat) (w : World) : Proc unit :=
  main LOGIN_WITH_GOOGLE
    (Relaunch.relaunchOnExitCode RELAUNCH_EXIT_CODE fuel)
    (Relaunch.relaunchAppInChildProcess RELAUNCH_EXIT_CODE w fuel)
    w.

(* ================================================================== *)
(** ** Vocabulary of the statements *)
(* ================================================================== *)

(** [i] is the position of the first prompt flag of [args]. *)
Definition first_prompt_flag (args : list string) (i : nat) : Prop :=
  (∃ flag, args !! i = Some flag ∧ is_prompt_flag flag)
  ∧ ∀ j arg, args !! j = Some arg → (j < i)%nat → ¬ is_prompt_flag arg.

(** Every event of [l] that satisfies [x] comes after one that satisfies
    [d]. *)
Fixpoint always_after (d x : Event → bool) (l : list Event) : bool :=
  match l with
  | [] => true
  | e :: l' => if x e then false else if d e then true else always_after d x l'
  end.

Definition is_child_spawn (e : Event) : bool :=
  match e with EvStartSandbox _ _ _ | EvSpawnChild _ _ => true | _ => false end.

(** The actions of the memory calculator. *)
Definition is_memory_probe (e : Event) : bool :=
  match e with EvOsTotalmem | EvGetHeapStatistics => true | _ => false end.

(** The memory flags a spawn event carries. *)
Definition spawn_memoryArgs (e : Event) : option (list string) :=
  match e with
  | EvStartSandbox _ memoryArgs _ => Some memoryArgs
  | EvSpawnChild nodeArgs _ => Some nodeArgs
  | _ => None
  end.

(** Actions that only the block after the relaunch logic performs. *)
Definition is_dispatch (e : Event) : bool :=
  match e with
  | EvLoadExtensions | EvSetRawMode _ | EvDetectAndEnableKittyProtocol
  | EvKittyDetectionResolved _ | EvSetMaxSizedBoxDebugging _
  | EvInitializeApp | EvGetOauthClient _ | EvRunZedIntegration
  | EvGetStartupWarnings | EvGetUserStartupWarnings | EvGetCliVersion
  | EvSetWindowTitle | EvRender | EvCheckForUpdates | EvConfigInitialize
  | EvLogUserPrompt _ _ | EvValidateNonInteractiveAuth
  | EvRunNonInteractive _ _ | EvRunExitCleanup => true
  | _ => false
  end.

(** Actions of [startInteractiveUI]. *)
Definition is_ui_construction (e : Event) : bool :=
  match e with
  | EvGetCliVersion | EvSetWindowTitle | EvRender | EvCheckForUpdates => true
  | _ => false
  end.

Definition is_kitty_start (e : Event) : bool :=
  match e with EvDetectAndEnableKittyProtocol => true | _ => false end.

(** The deferred detection resolved to [result]. *)
Definition is_kitty_result (result : option bool) (e : Event) : bool :=
  match e, result with
  | EvKittyDetectionResolved enabled, Some b => Bool.eqb enabled b
  | _, _ => false
  end.

(** Configuration initialization and the collection of the startup
    warnings. *)
Definition is_startup_load (e : Event) : bool :=
  match e with
  | EvInitializeApp | EvGetStartupWarnings | EvGetUserStartupWarnings => true
  | _ => false
  end.

(** The flag-combination guard of lines 253-258 fires. *)
Definition guard_fires (w : World) : bool :=
  JS.truthy_opt_string (argv_promptInteractive w) && negb (stdin_isTTY w).

(** The fixed prefix of every run: lines 242-249. *)
Definition arguments_events : list Event :=
  [EvSetupUnhandledRejectionHandler; EvLoadSettings;
   EvMigrateDeprecatedSettings; EvCleanupCheckpoints; EvRandomUUID;
   EvParseArguments].

(** What the non-interactive path hands to the pipeline. *)
Definition merged_input (w : World) : string :=
  if negb (stdin_isTTY w) && JS.truthy_string (stdin_text w)
  then stdin_text w +:+ JS.nlnl +:+ config_getQuestion w
  else config_getQuestion w.

(** The claim "terminates by propagating a child's exit code or by the
    relaunch protocol": an exit status is the code of a child that was
    spawned, and the only other ending is a loop still running. *)
Definition ends_by_child (w : World) (r : Run unit) : Prop :=
  match outcome r with
  | Exit c => ∃ k, (k < spawned r)%nat ∧ c = child_exit w k
  | Pending => True
  | Ret _ => False
  end.

(** The claim "the incompatibility error is raised before any other
    side effect": it is the first action of the run. *)
Definition guard_error_first (r : Run unit) : Prop :=
  ∃ rest, events r = EvConsoleError [prompt_interactive_error] :: rest.

(** The claim "standard input is read if and only if no question was
    supplied and standard input is not a terminal". *)
Definition stdin_read_iff_no_question (w : World) (r : Run unit) : Prop :=
  EvReadStdin ∈ events r
  ↔ config_getQuestion w = EmptyString ∧ stdin_isTTY w = false.

(** [evs] happened, then [r]. *)
Definition prepend {A} (evs : list Event) (r : Run A) : Run A :=
  mkRun (outcome r) (evs ++ events r) (spawned r).

(** What [main_configure] may do. *)
Definition is_configure (e : Event) : bool :=
  match e with
  | EvConsolePatch | EvRegisterCleanup _ | EvConsoleWarn _
  | EvDnsSetDefaultResultOrder _ | EvLoadCustomThemes | EvSetActiveTheme _ =>
      true
  | _ => false
  end.

(** The authentication method the sandbox branch must validate: one is
    selected and authentication is not delegated externally. *)
Definition auth_required (w : World) : option string :=
  match auth_selectedType w with
  | Some t =>
      if JS.truthy_string t && negb (JS.truthy_opt_bool (auth_useExternal w))
      then Some t else None
  | None => None
  end.

(** The error of a failed validation or, after a passed validation, of
    a failed refresh. *)
Definition auth_failure (w : World) (t : string) : option string :=
  if JS.truthy_opt_string (validateAuthMethod w t)
  then validateAuthMethod w t
  else refreshAuth_throws w t.

Definition authenticate_events (w : World) (t : string) : list Event :=
  EvValidateAuthMethod t
  :: (if JS.truthy_opt_string (validateAuthMethod w t) then []
      else [EvRefreshAuth t]).

(** What the sandbox branch captures from standard input. *)
Definition captured_stdin (w : World) : string :=
  if stdin_isTTY w then EmptyString else stdin_text w.

(* ================================================================== *)
(** ** Sample process starts *)
(* ================================================================== *)

Definition sample_sandbox : SandboxConfig :=
  mkSandboxConfig "docker" "sandbox-image".

(** Children that exit with 42, 42 and then 5. *)
Definition sample_children (n : nat) : Z :=
  match n with
  | 0%nat | 1%nat => 42%Z
  | _ => 5%Z
  end.

(** A machine with 16384 MB of memory and a 4096 MB heap limit, piped
    input ["ctx"] and the authentication method ["openai"]. *)
Definition sample_world (marker : option string) (cfg : option SandboxConfig)
    (tty : bool) (promptInteractive : option string)
    (authError : option string) (interactive : bool) (question : string)
  : World :=
  {| env_SANDBOX := marker;
     env_GEMINI_CLI_NO_RELAUNCH := None;
     process_argv := ["node"; "cli.js"];
     stdin_isTTY := tty;
     stdin_isRaw := false;
     stdin_text := "ctx";
     os_totalmem := 16384 * 1048576;
     heap_size_limit := 4096 * 1048576;
     sessionId := "session";
     random_prompt_id := "8f3a";
     argv_promptInteractive := promptInteractive;
     argv_isDebugMode := false;
     advanced_dnsResolutionOrder := None;
     advanced_autoConfigureMemory := None;
     ui_theme := None;
     ui_hideWindowTitle := None;
     auth_selectedType := Some "openai";
     auth_useExternal := None;
     theme_setActiveTheme := λ _, true;
     sandboxConfig := cfg;
     validateAuthMethod := λ _, authError;
     refreshAuth_throws := λ _, None;
     child_exit := sample_children;
     extensions := [];
     kitty_detection := Some true;
     config_getListExtensions := false;
     config_isInteractive := interactive;
     config_isBrowserLaunchSuppressed := false;
     config_getExperimentalZedIntegration := false;
     config_getQuestion := question;
     config_getDebugMode := false |}.

(** No marker, no sandbox, a terminal. *)
Definition world_plain : World :=
  sample_world None None true None None false EmptyString.

(** A sandbox is configured and input is piped. *)
Definition world_sandbox : World :=
  sample_world None (Some sample_sandbox) false None None false EmptyString.

(** A sandbox is configured and the authentication method is rejected. *)
Definition world_failing_auth : World :=
  sample_world None (Some sample_sandbox) true None (Some "missing API key")
    false EmptyString.

(** [--prompt-interactive] with piped input. *)
Definition world_piped_interactive_flag : World :=
  sample_world None None false (Some "go") None true EmptyString.

(** Inside the sandbox, a one-shot run with the question ["hi"] and
    piped input. *)
Definition world_batch : World :=
  sample_world (Some "sandbox-exec") None false None None false "hi".

(** Inside the sandbox, an interactive run on a terminal. *)
Definition world_interactive : World :=
  sample_world (Some "sandbox-exec") None true None None true EmptyString.

(** A process start on a sample machine, the sentinel being 42. *)
Definition sample_run (w : World) : Run unit :=
  start (program "oauth-personal" 42 10 w).

(* ================================================================== *)
(** ** setupUnhandledRejectionHandler (lines 133-153) *)
(* ================================================================== *)

(** What [appEvents.emit] is called with. *)
Inductive AppEvent :=
| LogError (message : string)
| OpenDebugConsole.

(** The value a promise was rejected with, as the handler looks at it:
    its string form [`${reason}`], whether it is an [Error], and its
    [stack]. *)
Record Rejection := mkRejection {
  reason_string : string;
  reason_is_Error : bool;
  reason_stack : option string
}.

Definition rejection_rule : string :=
  "=========================================".

(** The template literal of lines 136-146. *)
Definition rejection_message (reason : Rejection) : string :=
  rejection_rule +:+ JS.nl
  +:+ "This is an unexpected error. Please file a bug report using the /bug tool."
  +:+ JS.nl
  +:+ "CRITICAL: Unhandled Promise Rejection!" +:+ JS.nl
  +:+ rejection_rule +:+ JS.nl
  +:+ "Reason: " +:+ reason_string reason
  +:+ (if reason_is_Error reason && JS.truthy_opt_string (reason_stack reason)
       then JS.nl +:+ "Stack trace:" +:+ JS.nl
            +:+ default EmptyString (reason_stack reason)
       else EmptyString).

(** The listener of lines 135-152: what it emits for one rejection and
    the new value of the captured [unhandledRejectionOccurred]. *)
Definition on_unhandledRejection (unhandledRejectionOccurred : bool)
    (reason : Rejection) : list AppEvent * bool :=
  let errorMessage := rejection_message reason in
  if negb unhandledRejectionOccurred
  then ([LogError errorMessage; OpenDebugConsole], true)
  else ([LogError errorMessage], unhandledRejectionOccurred).

(** The listener over the rejections of a process, in order. *)
Fixpoint unhandled_rejections (unhandledRejectionOccurred : bool)
    (reasons : list Rejection) : list AppEvent :=
  match reasons with
  | [] => []
  | reason :: reasons' =>
      let '(emitted, occurred) :=
        on_unhandledRejection unhandledRejectionOccurred reason in
      emitted ++ unhandled_rejections occurred reasons'
  end.

(** [setupUnhandledRejectionHandler]: the flag starts [false] and the
    listener is installed. *)
Definition setupUnhandledRejectionHandler (reasons : list Rejection)
  : list AppEvent :=
  let unhandledRejectionOccurred := false in
  unhandled_rejections unhandledRejectionOccurred reasons.

(* ================================================================== *)
(** ** Further vocabulary *)
(* ================================================================== *)

(** How often an event of class [p] happens. *)
Fixpoint occurrences (p : Event → bool) (l : list Event) : nat :=
  match l with
  | [] => 0
  | e :: l' => (if p e then 1 else 0) + occurrences p l'
  end.

Definition is_read_stdin (e : Event) : bool :=
  match e with EvReadStdin => true | _ => false end.

Definition is_process_exit (e : Event) : bool :=
  match e with EvProcessExit _ => true | _ => false end.

Definition is_exit_cleanup (e : Event) : bool :=
  match e with EvRunExitCleanup => true | _ => false end.

Definition is_oauth_prefetch (e : Event) : bool :=
  match e with EvGetOauthClient _ => true | _ => false end.

(** The actions of lines 289-374. *)
Definition is_relaunch_logic (e : Event) : bool :=
  match e with
  | EvOsTotalmem | EvGetHeapStatistics | EvConsoleDebug _
  | EvLoadSandboxConfig | EvValidateAuthMethod _ | EvRefreshAuth _
  | EvStartSandbox _ _ _ | EvSpawnChild _ _ => true
  | _ => false
  end.

(** Everything the block of lines 381-518 can do. *)
Definition dispatch_may_emit (e : Event) : bool :=
  match e with
  | EvLoadCliConfig _ | EvConsoleLog _ | EvConsoleError _ | EvProcessExit _
  | EvOnSignal _ | EvReadStdin | EvRegisterCleanup _ => true
  | _ => is_dispatch e
  end.

(** The one-shot question is run by the pipeline. *)
Definition is_pipeline (e : Event) : bool :=
  match e with EvRunNonInteractive _ _ => true | _ => false end.

(** The condition of lines 431-435. *)
Definition oauth_prefetch_due (L : string) (w : World) : bool :=
  bool_decide (auth_selectedType w = Some L)
  && config_isBrowserLaunchSuppressed w.

(** The condition of line 407. *)
Definition raw_mode_due (w : World) : bool :=
  config_isInteractive w && negb (stdin_isRaw w) && stdin_isTTY w.

(** [text] is the beginning of [s]. *)
Definition starts_with (text s : string) : Prop := ∃ rest, s = text +:+ rest.

Definition is_console_warn (e : Event) : bool :=
  match e with EvConsoleWarn _ => true | _ => false end.

Definition is_set_raw_mode (e : Event) : bool :=
  match e with EvSetRawMode _ => true | _ => false end.

(** The call [process.stdin.setRawMode(true)] of line 411. *)
Definition is_raw_mode_on (e : Event) : bool :=
  match e with EvSetRawMode true => true | _ => false end.

(** The DNS order of the settings is present and not one of the two
    accepted values. *)
Definition dns_order_invalid (w : World) : bool :=
  match advanced_dnsResolutionOrder w with
  | Some s => negb (String.eqb s "ipv4first") && negb (String.eqb s "verbatim")
  | None => false
  end.

(** A theme is named in the settings and the theme manager does not
    know it. *)
Definition theme_unknown (w : World) : bool :=
  match ui_theme w with
  | Some theme => JS.truthy_string theme && negb (theme_setActiveTheme w theme)
  | None => false
  end.

(** Runs inside the sandbox on a terminal, with the login method
    ["oauth-personal"], browser launch suppressed and two extensions. *)
Definition sample_dispatch_world (listExtensions zed interactive : bool)
    (kitty : option bool) : World :=
  {| env_SANDBOX := Some "sandbox-exec";
     env_GEMINI_CLI_NO_RELAUNCH := None;
     process_argv := ["node"; "cli.js"];
     stdin_isTTY := true;
     stdin_isRaw := false;
     stdin_text := EmptyString;
     os_totalmem := 16384 * 1048576;
     heap_size_limit := 4096 * 1048576;
     sessionId := "session";
     random_prompt_id := "8f3a";
     argv_promptInteractive := None;
     argv_isDebugMode := false;
     advanced_dnsResolutionOrder := Some "bogus";
     advanced_autoConfigureMemory := None;
     ui_theme := Some "neon";
     ui_hideWindowTitle := None;
     auth_selectedType := Some "oauth-personal";
     auth_useExternal := None;
     theme_setActiveTheme := λ _, false;
     sandboxConfig := None;
     validateAuthMethod := λ _, Some EmptyString;
     refreshAuth_throws := λ _, None;
     child_exit := sample_children;
     extensions := ["one"; "two"];
     kitty_detection := kitty;
     config_getListExtensions := listExtensions;
     config_isInteractive := interactive;
     config_isBrowserLaunchSuppressed := true;
     config_getExperimentalZedIntegration := zed;
     config_getQuestion := "hi";
     config_getDebugMode := false |}.

Definition world_list_extensions : World :=
  sample_dispatch_world true true true (Some true).

Definition world_zed : World :=
  sample_dispatch_world false true true None.

Definition world_login : World :=
  sample_dispatch_world false false true (Some false).

(* ================================================================== *)
(** ** Evaluating computations *)
(* ================================================================== *)

Arguments targetMaxOldSpaceSizeInMB : simpl never.
Arguments currentMaxOldSpaceSizeMb : simpl never.
Arguments totalMemoryMB : simpl never.
Arguments max_old_space_size_flag : simpl never.
Arguments injectStdinIntoArgs : simpl never.
Arguments JS.toFixed2 : simpl never.
Arguments JS.truthy_opt_string : simpl never.
Arguments JS.truthy_opt_bool : simpl never.
Arguments JS.truthy_string : simpl never.
Arguments String.append : simpl never.

(** Case analysis on the next branch condition of a computation. *)
Ltac destruct_cond :=
  match goal with
  | |- context [if ?b then _ else _] =>
      lazymatch b with
      | context [if _ then _ else _] => fail
      | context [match _ with _ => _ end] => fail
      | negb ?c => destruct c eqn:?; cbn [negb]
      | _ => destruct b eqn:?
      end
  end.

(** Running a computation whose branch conditions are known. *)
Ltac run_proc :=
  cbv beta iota zeta delta
    [mbind proc_bind bind mret proc_ret ret emit process_exit never when
     outcome events spawned app start].

Lemma truthy_string_true s : s ≠ EmptyString → JS.truthy_string s = true.
Proof.
  intros H. unfold JS.truthy_string.
  apply negb_true_iff, String.eqb_neq. exact H.
Qed.

Lemma truthy_string_false s : JS.truthy_string s = false ↔ s = EmptyString.
Proof.
  unfold JS.truthy_string. rewrite negb_false_iff. apply String.eqb_eq.
Qed.

Lemma truthy_string_append s t :
  JS.truthy_string s = true → JS.truthy_string (s +:+ t) = true.
Proof.
  destruct s as [|a s]; [discriminate|]. reflexivity.
Qed.

(* ================================================================== *)
(** ** The DNS-order validator *)
(* ================================================================== *)

(** C9. The validator maps ["ipv4first"] and ["verbatim"] to themselves
    and an absent value to the default ["ipv4first"], all three silently;
    every other string gives ["ipv4first"] together with exactly one
    warning; in every case it returns normally and spawns nothing. *)
Theorem validateDnsResolutionOrder_spec (n : nat) :
  validateDnsResolutionOrder (Some "ipv4first") n = mkRun (Ret ipv4first) [] n
  ∧ validateDnsResolutionOrder (Some "verbatim") n = mkRun (Ret verbatim) [] n
  ∧ validateDnsResolutionOrder None n = mkRun (Ret ipv4first) [] n
  ∧ (∀ s, s ≠ "ipv4first" → s ≠ "verbatim" →
       validateDnsResolutionOrder (Some s) n
       = mkRun (Ret ipv4first) [EvConsoleWarn (dns_warning s)] n)
  ∧ (∀ order, ∃ o, outcome (validateDnsResolutionOrder order n) = Ret o
       ∧ (DnsResolutionOrder_to_string o = "ipv4first"
          ∨ DnsResolutionOrder_to_string o = "verbatim")).
Proof.
  repeat split; try reflexivity.
  - intros s H1 H2. unfold validateDnsResolutionOrder.
    apply String.eqb_neq in H1, H2. rewrite H1, H2. reflexivity.
  - intros [s|]; unfold validateDnsResolutionOrder.
    + repeat destruct_cond; run_proc; eexists; split; eauto.
    + eexists; split; eauto.
Qed.

Lemma validateDnsResolutionOrder_bogus :
  validateDnsResolutionOrder (Some "bogus") 0
  = mkRun (Ret ipv4first) [EvConsoleWarn (dns_warning "bogus")] 0.
Proof.
  apply (validateDnsResolutionOrder_spec 0); discriminate.
Defined.

(* ================================================================== *)
(** ** The memory calculator *)
(* ================================================================== *)

Lemma targetMaxOldSpaceSizeInMB_div w :
  targetMaxOldSpaceSizeInMB w = (os_totalmem w / 2097152)%Z.
Proof.
  unfold targetMaxOldSpaceSizeInMB, totalMemoryMB, Qfloor. simpl.
  f_equal. lia.
Qed.

Lemma currentMaxOldSpaceSizeMb_div w :
  currentMaxOldSpaceSizeMb w = (heap_size_limit w / 1048576)%Z.
Proof.
  unfold currentMaxOldSpaceSizeMb, Qfloor. simpl. f_equal. lia.
Qed.

(** The list the calculator returns. *)
Lemma getNodeMemoryArgs_run w dbg n :
  ∃ evs,
    getNodeMemoryArgs w dbg n
    = mkRun (Ret (if JS.truthy_opt_string (env_GEMINI_CLI_NO_RELAUNCH w)
                  then []
                  else if (targetMaxOldSpaceSizeInMB w
                           >? currentMaxOldSpaceSizeMb w)%Z
                       then [max_old_space_size_flag
                               (targetMaxOldSpaceSizeInMB w)]
                       else []))
        evs n
    ∧ EvOsTotalmem ∈ evs
    ∧ Forall (λ e, is_memory_probe e = true ∨ ∃ m, e = EvConsoleDebug m) evs.
Proof.
  unfold getNodeMemoryArgs, when.
  repeat destruct_cond; run_proc; eexists; (split; [reflexivity|]);
    (split; [apply list_elem_of_here|]);
    repeat (apply Forall_cons; split;
            [first [left; reflexivity | right; eexists; reflexivity]|]);
    apply Forall_nil_2.
Qed.

(** C3. With [target = floor (totalMemoryMB * 0.5)]: when the
    no-relaunch marker is set the calculator returns the empty list;
    otherwise it returns the single flag [--max-old-space-size=target]
    when [target] exceeds the current maximum (both in megabytes) and
    the empty list when it does not. It spawns nothing and, debug
    logging apart, only reads the two memory figures. With 8192 MB of
    memory and a 4096 MB heap the list is empty, with 16384 MB it is
    the one flag encoding 8192. *)
Theorem getNodeMemoryArgs_spec (w : World) (dbg : bool) (n : nat) :
  let target := Qfloor (totalMemoryMB w * (1 # 2))%Q in
  let current := currentMaxOldSpaceSizeMb w in
  let r := getNodeMemoryArgs w dbg n in
  target = (os_totalmem w / (2 * 1048576))%Z
  ∧ current = (heap_size_limit w / 1048576)%Z
  ∧ outcome r
    = Ret (if JS.truthy_opt_string (env_GEMINI_CLI_NO_RELAUNCH w) then []
           else if (current <? target)%Z
                then ["--max-old-space-size=" +:+ JS.number_to_string target]
                else [])
  ∧ spawned r = n
  ∧ Forall (λ e, is_memory_probe e = true ∨ ∃ m, e = EvConsoleDebug m)
      (events r)
  ∧ (JS.truthy_opt_string (env_GEMINI_CLI_NO_RELAUNCH w) = true →
     outcome r = Ret [])
  ∧ (JS.truthy_opt_string (env_GEMINI_CLI_NO_RELAUNCH w) = false →
     os_totalmem w = (8192 * 1048576)%Z →
     heap_size_limit w = (4096 * 1048576)%Z →
     target = 4096%Z ∧ outcome r = Ret [])
  ∧ (JS.truthy_opt_string (env_GEMINI_CLI_NO_RELAUNCH w) = false →
     os_totalmem w = (16384 * 1048576)%Z →
     heap_size_limit w = (4096 * 1048576)%Z →
     target = 8192%Z ∧ outcome r = Ret ["--max-old-space-size=8192"]).
Proof.
  intros target current r.
  assert (Ht : target = (os_totalmem w / 2097152)%Z)
    by apply targetMaxOldSpaceSizeInMB_div.
  assert (Hc : current = (heap_size_limit w / 1048576)%Z)
    by apply currentMaxOldSpaceSizeMb_div.
  destruct (getNodeMemoryArgs_run w dbg n) as (evs & Hr & _ & Hevs).
  fold r in Hr. fold target current in Hr.
  assert (Ho : outcome r
    = Ret (if JS.truthy_opt_string (env_GEMINI_CLI_NO_RELAUNCH w) then []
           else if (current <? target)%Z
                then ["--max-old-space-size=" +:+ JS.number_to_string target]
                else [])).
  { rewrite Hr. cbn [outcome]. rewrite Z.gtb_ltb. reflexivity. }
  split; [exact Ht|]. split; [exact Hc|]. split; [exact Ho|].
  split; [rewrite Hr; reflexivity|].
  split; [rewrite Hr; exact Hevs|].
  split; [|split].
  - intros E. rewrite Ho, E. reflexivity.
  - intros E Hm Hh. rewrite Ho, E, Ht, Hc, Hm, Hh. split; reflexivity.
  - intros E Hm Hh. rewrite Ho, E, Ht, Hc, Hm, Hh. split; reflexivity.
Qed.

(** On the sample machine the calculator asks for 8192 MB. *)
Lemma getNodeMemoryArgs_sample :
  outcome (getNodeMemoryArgs world_plain false 0)
  = Ret ["--max-old-space-size=8192"].
Proof.
  apply (getNodeMemoryArgs_spec world_plain false 0); reflexivity.
Defined.

(* ================================================================== *)
(** ** The stdin injector *)
(* ================================================================== *)

Lemma first_prompt_flag_find args i :
  first_prompt_flag args i ↔ ∃ flag, list_find is_prompt_flag args = Some (i, flag).
Proof.
  unfold first_prompt_flag. split.
  - intros [(flag & Hi & Hf) Hmin]. exists flag.
    apply list_find_Some. auto.
  - intros (flag & H). apply list_find_Some in H as (Hi & Hf & Hmin).
    split; [eauto|]. exact Hmin.
Qed.

(** With captured text, the injector rewrites the value after the first
    prompt flag when there is one. *)
Lemma injectStdinIntoArgs_replace args s i v :
  s ≠ EmptyString → first_prompt_flag args i → args !! S i = Some v →
  injectStdinIntoArgs args (Some s) = <[S i := s +:+ JS.nlnl +:+ v]> args.
Proof.
  intros Hs Hi Hv. apply first_prompt_flag_find in Hi as (flag & Hfind).
  unfold injectStdinIntoArgs, JS.findIndex.
  rewrite (truthy_string_true s Hs), Hfind.
  pose proof (lookup_lt_Some _ _ _ Hv) as Hlt.
  assert (H1 : (Z.of_nat i >? -1)%Z = true) by (apply Z.gtb_lt; lia).
  assert (H2 : (Z.of_nat (length args) >? Z.of_nat i + 1)%Z = true)
    by (apply Z.gtb_lt; lia).
  rewrite H1, H2. cbn [andb].
  replace (Z.to_nat (Z.of_nat i + 1)) with (S i) by lia.
  rewrite (list_lookup_total_correct _ _ _ Hv). reflexivity.
Qed.

(** Otherwise it appends the flag and the text. *)
Lemma injectStdinIntoArgs_append args s :
  s ≠ EmptyString →
  (∀ i, first_prompt_flag args i → args !! S i = None) →
  injectStdinIntoArgs args (Some s) = args ++ ["--prompt"; s].
Proof.
  intros Hs Hnone. unfold injectStdinIntoArgs, JS.findIndex, JS.push2.
  rewrite (truthy_string_true s Hs).
  destruct (list_find is_prompt_flag args) as [[i flag]|] eqn:Hfind.
  - assert (Hi : first_prompt_flag args i)
      by (apply first_prompt_flag_find; eauto).
    apply Hnone, lookup_ge_None in Hi.
    assert (H2 : (Z.of_nat (length args) >? Z.of_nat i + 1)%Z = false)
      by (rewrite Z.gtb_ltb; apply Z.ltb_ge; lia).
    rewrite H2, andb_false_r. reflexivity.
  - reflexivity.
Qed.

Lemma prompt_flag_with_value_first args j flag :
  args !! j = Some flag → is_prompt_flag flag → is_Some (args !! S j) →
  ∃ i, first_prompt_flag args i ∧ is_Some (args !! S i).
Proof.
  intros Hj Hf Hv.
  destruct (list_find is_prompt_flag args) as [[i flag']|] eqn:Hfind.
  - exists i. split; [apply first_prompt_flag_find; eauto|].
    apply list_find_Some in Hfind as (Hi & _ & Hmin).
    apply lookup_lt_is_Some. apply lookup_lt_is_Some in Hv.
    destruct (decide (j < i)%nat) as [Hlt|Hge]; [|lia].
    exfalso. exact (Hmin j flag Hj Hlt Hf).
  - apply list_find_None in Hfind.
    rewrite Forall_forall in Hfind. exfalso.
    apply (Hfind flag); [|exact Hf].
    apply list_elem_of_lookup. eauto.
Qed.

(** C2. The injector is a function of the argument vector and the
    captured text alone. With an empty (or absent) text it returns the
    vector unchanged. With a non-empty text [s]: if some prompt flag
    ([--prompt] or [-p]) has a following element, the value [v] after
    the first prompt flag is replaced by [s ++ "\n\n" ++ v] and nothing
    else changes; if no prompt flag has a following element, the result
    is the vector followed by [--prompt] and [s]. In every case each
    other element keeps its value and its position. *)
Theorem injectStdinIntoArgs_spec (args : list string) (s : string) :
  injectStdinIntoArgs args (Some EmptyString) = args
  ∧ injectStdinIntoArgs args None = args
  ∧ (s ≠ EmptyString →
     ((∃ j flag, args !! j = Some flag ∧ is_prompt_flag flag
                 ∧ is_Some (args !! S j)) →
      ∃ i v, first_prompt_flag args i ∧ args !! S i = Some v
             ∧ injectStdinIntoArgs args (Some s)
               = <[S i := s +:+ JS.nlnl +:+ v]> args
             ∧ length (injectStdinIntoArgs args (Some s)) = length args
             ∧ ∀ k, k ≠ S i →
                 injectStdinIntoArgs args (Some s) !! k = args !! k)
     ∧ ((∀ j flag, args !! j = Some flag → is_prompt_flag flag →
                   args !! S j = None) →
        injectStdinIntoArgs args (Some s) = args ++ ["--prompt"; s]
        ∧ ∀ k x, args !! k = Some x →
            injectStdinIntoArgs args (Some s) !! k = Some x)).
Proof.
  split; [reflexivity|]. split; [reflexivity|].
  intros Hs. split.
  - intros (j & flag & Hj & Hf & Hv).
    destruct (prompt_flag_with_value_first args j flag Hj Hf Hv)
      as (i & Hi & [v Hiv]).
    exists i, v. split; [exact Hi|]. split; [exact Hiv|].
    rewrite (injectStdinIntoArgs_replace args s i v Hs Hi Hiv).
    split; [reflexivity|]. split; [apply length_insert|].
    intros k Hk. apply list_lookup_insert_ne. congruence.
  - intros Hnone.
    rewrite (injectStdinIntoArgs_append args s Hs).
    + split; [reflexivity|]. intros k x Hk. apply lookup_app_l_Some, Hk.
    + intros i [(flag & Hi & Hf) _]. eauto.
Qed.

(** The two vectors of the specification's examples. *)
Lemma injectStdinIntoArgs_examples :
  injectStdinIntoArgs ["--prompt"; "hi"] (Some "ctx")
  = ["--prompt"; "ctx" +:+ JS.nlnl +:+ "hi"]
  ∧ injectStdinIntoArgs ["other"] (Some "ctx") = ["other"; "--prompt"; "ctx"].
Proof.
  split.
  - destruct (injectStdinIntoArgs_spec ["--prompt"; "hi"] "ctx")
      as (_ & _ & H).
    destruct H as [H _]; [discriminate|].
    destruct H as (i & v & Hi & Hv & Heq & _).
    + exists 0%nat, "--prompt". repeat split; [left; reflexivity | by eexists].
    + destruct i as [|i]; [|destruct i; discriminate].
      simpl in Hv. injection Hv as <-. exact Heq.
  - destruct (injectStdinIntoArgs_spec ["other"] "ctx") as (_ & _ & H).
    destruct H as [_ H]; [discriminate|].
    apply H. intros [|j] flag Hj Hf; simplify_eq/=.
    destruct Hf; discriminate.
Defined.

(* ================================================================== *)
(** ** The relaunch protocol *)
(* ================================================================== *)

Section RelaunchFacts.

Variable sentinel : Z.
Variable w : World.
Variable e : Event.

Lemma relaunch_step_again fuel n :
  child_exit w n = sentinel →
  Relaunch.relaunchOnExitCode sentinel (S fuel) (spawn w e) n
  = let r := Relaunch.relaunchOnExitCode sentinel fuel (spawn w e) (S n) in
    mkRun (outcome r) (e :: events r) (spawned r).
Proof.
  intros H. cbn [Relaunch.relaunchOnExitCode].
  unfold mbind, proc_bind, bind. cbn [spawn outcome events spawned].
  rewrite H, Z.eqb_refl. reflexivity.
Qed.

Lemma relaunch_step_exit fuel n :
  child_exit w n ≠ sentinel →
  Relaunch.relaunchOnExitCode sentinel (S fuel) (spawn w e) n
  = mkRun (Exit (child_exit w n)) [e; EvProcessExit (child_exit w n)] (S n).
Proof.
  intros H. cbn [Relaunch.relaunchOnExitCode].
  unfold mbind, proc_bind, bind. cbn [spawn outcome events spawned].
  apply Z.eqb_neq in H. rewrite H. reflexivity.
Qed.

(** The first [k] children ask for a relaunch and the next one does
    not: the loop spawns [k + 1] times and exits with that code. *)
Lemma relaunch_exits k : ∀ fuel n,
  (k < fuel)%nat →
  (∀ j, (j < k)%nat → child_exit w (n + j) = sentinel) →
  child_exit w (n + k) ≠ sentinel →
  Relaunch.relaunchOnExitCode sentinel fuel (spawn w e) n
  = mkRun (Exit (child_exit w (n + k)))
      (replicate (S k) e ++ [EvProcessExit (child_exit w (n + k))])
      (n + S k).
Proof.
  induction k as [|k IH]; intros fuel n Hfuel Hbefore Hlast.
  - destruct fuel as [|fuel]; [lia|].
    rewrite Nat.add_0_r in *. rewrite relaunch_step_exit by exact Hlast.
    rewrite Nat.add_1_r. reflexivity.
  - destruct fuel as [|fuel]; [lia|].
    rewrite relaunch_step_again
      by (rewrite <- (Nat.add_0_r n); apply Hbefore; lia).
    rewrite (IH fuel (S n)).
    + cbn [outcome events spawned]. rewrite <- !Nat.add_succ_comm.
      reflexivity.
    + lia.
    + intros j Hj. rewrite Nat.add_succ_comm. apply Hbefore. lia.
    + rewrite Nat.add_succ_comm. exact Hlast.
Qed.

(** Every child the model follows asks for a relaunch: the loop is
    still running when the fuel is spent. *)
Lemma relaunch_spins : ∀ fuel n,
  (∀ j, (j < fuel)%nat → child_exit w (n + j) = sentinel) →
  Relaunch.relaunchOnExitCode sentinel fuel (spawn w e) n = mkRun Pending (replicate fuel e) (n + fuel).
Proof.
  induction fuel as [|fuel IH]; intros n Hall.
  - rewrite Nat.add_0_r. reflexivity.
  - rewrite relaunch_step_again
      by (rewrite <- (Nat.add_0_r n); apply Hall; lia).
    rewrite IH.
    + cbn [outcome events spawned]. rewrite <- Nat.add_succ_comm.
      reflexivity.
    + intros j Hj. rewrite Nat.add_succ_comm. apply Hall. lia.
Qed.

(** One of the two happens. *)
Lemma relaunch_cases fuel n :
  (∃ k, (k < fuel)%nat
        ∧ (∀ j, (j < k)%nat → child_exit w (n + j) = sentinel)
        ∧ child_exit w (n + k) ≠ sentinel
        ∧ Relaunch.relaunchOnExitCode sentinel fuel (spawn w e) n
          = mkRun (Exit (child_exit w (n + k)))
              (replicate (S k) e ++ [EvProcessExit (child_exit w (n + k))])
              (n + S k))
  ∨ ((∀ j, (j < fuel)%nat → child_exit w (n + j) = sentinel)
     ∧ Relaunch.relaunchOnExitCode sentinel fuel (spawn w e) n = mkRun Pending (replicate fuel e) (n + fuel)).
Proof.
  assert (Hdec : (∃ k, (k < fuel)%nat
                    ∧ (∀ j, (j < k)%nat → child_exit w (n + j) = sentinel)
                    ∧ child_exit w (n + k) ≠ sentinel)
                 ∨ (∀ j, (j < fuel)%nat → child_exit w (n + j) = sentinel)).
  { induction fuel as [|fuel [(k & Hk & Hb & Hl)|Hall]].
    - right. intros j Hj. lia.
    - left. exists k. repeat split; [lia|exact Hb|exact Hl].
    - destruct (decide (child_exit w (n + fuel) = sentinel)) as [Heq|Hne].
      + right. intros j Hj.
        destruct (decide (j = fuel)) as [->|]; [exact Heq|apply Hall; lia].
      + left. exists fuel. repeat split; [lia|exact Hall|exact Hne]. }
  destruct Hdec as [(k & Hk & Hb & Hl)|Hall].
  - left. exists k. repeat split; try assumption.
    apply relaunch_exits; assumption.
  - right. split; [exact Hall|]. apply relaunch_spins, Hall.
Qed.

End RelaunchFacts.

(** C4. The protocol spawns and waits repeatedly with one and the same
    launcher. While the children exit with the relaunch sentinel the
    launcher is invoked again; the first other exit code ends the loop
    and becomes this process's exit status: when the first [k] children
    return the sentinel and the next one does not, the launcher is
    invoked exactly [k + 1] times, each time with the same arguments,
    and the process exits with that child's code. Children returning
    sentinel, sentinel, 5 cause three spawns and exit status 5. *)
Theorem relaunchOnExitCode_spec (sentinel : Z) (w : World) (e : Event)
    (fuel n k : nat) :
  (k < fuel)%nat →
  (∀ j, (j < k)%nat → child_exit w (n + j) = sentinel) →
  child_exit w (n + k) ≠ sentinel →
  let r := Relaunch.relaunchOnExitCode sentinel fuel (spawn w e) n in
  outcome r = Exit (child_exit w (n + k))
  ∧ events r = replicate (S k) e ++ [EvProcessExit (child_exit w (n + k))]
  ∧ spawned r = (n + S k)%nat
  ∧ (k = 2%nat → child_exit w (n + 2) = 5%Z →
     outcome r = Exit 5 ∧ spawned r = (n + 3)%nat
     ∧ events r = [e; e; e; EvProcessExit 5]).
Proof.
  intros Hfuel Hbefore Hlast r. subst r.
  rewrite (relaunch_exits sentinel w e k fuel n Hfuel Hbefore Hlast).
  cbn [outcome events spawned].
  split; [reflexivity|]. split; [reflexivity|]. split; [reflexivity|].
  intros -> H5. rewrite H5. repeat split.
Qed.

(** The sample children: two relaunch requests, then exit code 5. *)
Lemma relaunchOnExitCode_sample :
  outcome (Relaunch.relaunchOnExitCode 42 10
             (spawn world_plain (EvSpawnChild [] [])) 0) = Exit 5
  ∧ spawned (Relaunch.relaunchOnExitCode 42 10
               (spawn world_plain (EvSpawnChild [] [])) 0) = 3%nat
  ∧ events (Relaunch.relaunchOnExitCode 42 10
              (spawn world_plain (EvSpawnChild [] [])) 0)
    = [EvSpawnChild [] []; EvSpawnChild [] []; EvSpawnChild [] [];
       EvProcessExit 5].
Proof.
  assert (H := relaunchOnExitCode_spec 42 world_plain (EvSpawnChild [] [])
                 10 0 2).
  cbv zeta in H. destruct H as (Ho & He & Hn & _).
  - lia.
  - intros [|[|j]] Hj; [reflexivity|reflexivity|lia].
  - discriminate.
  - split; [exact Ho|]. split; [exact Hn|exact He].
Defined.

(* ================================================================== *)
(** ** Sequencing *)
(* ================================================================== *)

Lemma bind_returns {A B} (m : Proc A) (k : A → Proc B) n a evs n' :
  m n = mkRun (Ret a) evs n' → (m ≫= k) n = prepend evs (k a n').
Proof.
  intros H. unfold mbind, proc_bind, bind. rewrite H. reflexivity.
Qed.

Lemma bind_exits {A B} (m : Proc A) (k : A → Proc B) n c evs n' :
  m n = mkRun (Exit c) evs n' → (m ≫= k) n = mkRun (Exit c) evs n'.
Proof.
  intros H. unfold mbind, proc_bind, bind. rewrite H. reflexivity.
Qed.

(** A computation that does not return makes what follows irrelevant. *)
Lemma bind_no_return {A} (m : Proc A) (k : A → Proc A) n :
  (∀ a, outcome (m n) ≠ Ret a) → (m ≫= k) n = m n.
Proof.
  intros H. unfold mbind, proc_bind, bind.
  destruct (m n) as [[a|c|] evs n']; cbn in *; [destruct (H a)|..]; reflexivity.
Qed.

Lemma prepend_prepend {A} evs evs' (r : Run A) :
  prepend evs (prepend evs' r) = prepend (evs ++ evs') r.
Proof. unfold prepend. cbn. rewrite app_assoc. reflexivity. Qed.

(* ================================================================== *)
(** ** The pieces of main *)
(* ================================================================== *)

Lemma main_arguments_run w n :
  main_arguments w n
  = if guard_fires w
    then mkRun (Exit 1)
           (arguments_events
            ++ [EvConsoleError [prompt_interactive_error]; EvProcessExit 1]) n
    else mkRun (Ret tt) arguments_events n.
Proof.
  unfold main_arguments, guard_fires. destruct_cond; reflexivity.
Qed.

Lemma main_configure_run w n :
  ∃ evs, main_configure w n = mkRun (Ret tt) evs n
         ∧ Forall (λ e, is_configure e = true) evs.
Proof.
  unfold main_configure, validateDnsResolutionOrder, when.
  destruct (advanced_dnsResolutionOrder w) as [order|];
    destruct (ui_theme w) as [theme|];
    repeat destruct_cond; run_proc; eexists; (split; [reflexivity|]);
    repeat (apply Forall_cons; split; [reflexivity|]); apply Forall_nil_2.
Qed.

Lemma main_authenticate_run w n :
  main_authenticate w n
  = match auth_required w with
    | None => mkRun (Ret tt) [] n
    | Some t =>
        match auth_failure w t with
        | Some err =>
            mkRun (Exit 1)
              (authenticate_events w t
               ++ [EvConsoleError ["Error authenticating:"; err];
                   EvProcessExit 1]) n
        | None => mkRun (Ret tt) [EvValidateAuthMethod t; EvRefreshAuth t] n
        end
    end.
Proof.
  unfold main_authenticate, auth_required, auth_failure, authenticate_events.
  destruct (auth_selectedType w) as [t|]; [|reflexivity].
  destruct (JS.truthy_string t && negb (JS.truthy_opt_bool (auth_useExternal w)));
    [|reflexivity].
  destruct (JS.truthy_opt_string (validateAuthMethod w t)) eqn:Hv.
  - destruct (validateAuthMethod w t) as [err|]; [reflexivity|discriminate].
  - run_proc. destruct (refreshAuth_throws w t); reflexivity.
Qed.

(** The memory flags [main_relaunch] computes, and the actions of
    computing them. *)
Lemma memoryArgs_run w n :
  ∃ evs memoryArgs,
    (if JS.truthy_opt_bool (advanced_autoConfigureMemory w)
     then getNodeMemoryArgs w (argv_isDebugMode w)
     else ret []) n
    = mkRun (Ret memoryArgs) evs n
    ∧ Forall (λ e, is_memory_probe e = true ∨ ∃ m, e = EvConsoleDebug m) evs
    ∧ (JS.truthy_opt_bool (advanced_autoConfigureMemory w) = false →
       evs = [] ∧ memoryArgs = [])
    ∧ (JS.truthy_opt_bool (advanced_autoConfigureMemory w) = true →
       EvOsTotalmem ∈ evs).
Proof.
  destruct (JS.truthy_opt_bool (advanced_autoConfigureMemory w)).
  - destruct (getNodeMemoryArgs_run w (argv_isDebugMode w) n)
      as (evs & Hr & Hin & Hall).
    eexists evs, _. split; [exact Hr|]. split; [exact Hall|].
    split; [discriminate|]. intros _. exact Hin.
  - exists [], []. split; [reflexivity|]. split; [apply Forall_nil_2|].
    split; [split; reflexivity|discriminate].
Qed.

Section SpecifiedHelpers.

Variable LOGIN_WITH_GOOGLE : string.
Variable sentinel : Z.
Variable fuel : nat.

(** The relaunch loop never returns to its caller. *)
Lemma relaunch_no_return w e n a :
  outcome (Relaunch.relaunchOnExitCode sentinel fuel (spawn w e) n) ≠ Ret a.
Proof.
  destruct (relaunch_cases sentinel w e fuel n)
    as [(k & _ & _ & _ & ->)|(_ & ->)]; discriminate.
Qed.

(** The sandbox branch once authentication is settled. *)
Lemma main_sandbox_run w cfg memoryArgs n :
  main_sandbox (Relaunch.relaunchOnExitCode sentinel fuel) w cfg memoryArgs n
  = let launch :=
      EvStartSandbox cfg memoryArgs
        (injectStdinIntoArgs (process_argv w) (Some (captured_stdin w))) in
    let capture := if stdin_isTTY w then [] else [EvReadStdin] in
    match auth_required w with
    | None =>
        prepend (EvLoadCliConfig [] :: capture) (Relaunch.relaunchOnExitCode sentinel fuel (spawn w launch) n)
    | Some t =>
        match auth_failure w t with
        | Some err =>
            mkRun (Exit 1)
              (EvLoadCliConfig [] :: authenticate_events w t
               ++ [EvConsoleError ["Error authenticating:"; err];
                   EvProcessExit 1]) n
        | None =>
            prepend
              ([EvLoadCliConfig []; EvValidateAuthMethod t; EvRefreshAuth t]
               ++ capture)
              (Relaunch.relaunchOnExitCode sentinel fuel (spawn w launch) n)
        end
    end.
Proof.
  cbv zeta. unfold main_sandbox, captured_stdin, start_sandbox.
  rewrite (bind_returns _ _ n tt [EvLoadCliConfig []] n) by reflexivity.
  pose proof (main_authenticate_run w n) as Ha.
  destruct (auth_required w) as [t|]; [destruct (auth_failure w t) as [err|]|].
  - rewrite (bind_exits _ _ n _ _ _ Ha). reflexivity.
  - rewrite (bind_returns _ _ n _ _ _ Ha).
    destruct (stdin_isTTY w); cbn [negb].
    + rewrite (bind_returns _ _ n EmptyString [] n) by reflexivity.
      rewrite bind_no_return by (intros a; apply relaunch_no_return).
      rewrite !prepend_prepend. reflexivity.
    + rewrite (bind_returns _ _ n (stdin_text w) [EvReadStdin] n)
        by reflexivity.
      rewrite bind_no_return by (intros a; apply relaunch_no_return).
      rewrite !prepend_prepend. reflexivity.
  - rewrite (bind_returns _ _ n _ _ _ Ha).
    destruct (stdin_isTTY w); cbn [negb].
    + rewrite (bind_returns _ _ n EmptyString [] n) by reflexivity.
      rewrite bind_no_return by (intros a; apply relaunch_no_return).
      rewrite !prepend_prepend. reflexivity.
    + rewrite (bind_returns _ _ n (stdin_text w) [EvReadStdin] n)
        by reflexivity.
      rewrite bind_no_return by (intros a; apply relaunch_no_return).
      rewrite !prepend_prepend. reflexivity.
Qed.

End SpecifiedHelpers.

Lemma bind_returns_inv {A B} (m : Proc A) (k : A → Proc B) n b :
  outcome ((m ≫= k) n) = Ret b →
  ∃ a, outcome (m n) = Ret a ∧ outcome (k a (spawned (m n))) = Ret b.
Proof.
  unfold mbind, proc_bind, bind.
  destruct (m n) as [[a|c|] evs n']; cbn; [eauto|discriminate..].
Qed.

Lemma prepend_outcome {A} evs (r : Run A) : outcome (prepend evs r) = outcome r.
Proof. reflexivity. Qed.

Section AnyHelpers.

Variable LOGIN_WITH_GOOGLE : string.
Variable relaunchOnExitCode : Proc Z → Proc unit.
Variable relaunchAppInChildProcess : list string → list string → Proc unit.

(** Whatever the protocol does, the sandbox branch does not return:
    [process.exit(0)] follows the protocol. *)
Lemma main_sandbox_no_return w cfg memoryArgs n a :
  outcome (main_sandbox relaunchOnExitCode w cfg memoryArgs n) ≠ Ret a.
Proof.
  unfold main_sandbox. intros H.
  apply bind_returns_inv in H as (? & _ & H).
  apply bind_returns_inv in H as (? & _ & H).
  apply bind_returns_inv in H as (? & _ & H).
  apply bind_returns_inv in H as (? & _ & H).
  discriminate.
Qed.

Lemma main_relaunch_run w n :
  ∃ M memoryArgs,
    Forall (λ e, is_memory_probe e = true ∨ ∃ m, e = EvConsoleDebug m) M
    ∧ (JS.truthy_opt_bool (advanced_autoConfigureMemory w) = false →
       M = [] ∧ memoryArgs = [])
    ∧ (JS.truthy_opt_bool (advanced_autoConfigureMemory w) = true →
       EvOsTotalmem ∈ M)
    ∧ main_relaunch relaunchOnExitCode relaunchAppInChildProcess w n
      = prepend (M ++ [EvLoadSandboxConfig])
          (match sandboxConfig w with
           | Some cfg => main_sandbox relaunchOnExitCode w cfg memoryArgs n
           | None => relaunchAppInChildProcess memoryArgs [] n
           end).
Proof.
  destruct (memoryArgs_run w n) as (M & memoryArgs & Hr & HM & Hoff & Hon).
  exists M, memoryArgs. repeat (split; [assumption|]).
  unfold main_relaunch. rewrite (bind_returns _ _ n _ _ _ Hr).
  rewrite (bind_returns _ _ n tt [EvLoadSandboxConfig] n) by reflexivity.
  rewrite prepend_prepend. destruct (sandboxConfig w); reflexivity.
Qed.

Lemma main_bootstrap_guard w n :
  guard_fires w = true →
  main_bootstrap relaunchOnExitCode relaunchAppInChildProcess w n
  = mkRun (Exit 1)
      (arguments_events
       ++ [EvConsoleError [prompt_interactive_error]; EvProcessExit 1]) n.
Proof.
  intros Hg. unfold main_bootstrap.
  pose proof (main_arguments_run w n) as Ha. rewrite Hg in Ha.
  rewrite (bind_exits _ _ n _ _ _ Ha). reflexivity.
Qed.

Lemma main_bootstrap_run w n :
  guard_fires w = false →
  ∃ C, Forall (λ e, is_configure e = true) C
       ∧ main_bootstrap relaunchOnExitCode relaunchAppInChildProcess w n
         = prepend (arguments_events ++ C)
             ((if negb (JS.truthy_opt_string (env_SANDBOX w))
               then main_relaunch relaunchOnExitCode
                      relaunchAppInChildProcess w
               else ret tt) n).
Proof.
  intros Hg. destruct (main_configure_run w n) as (C & Hc & HC).
  exists C. split; [exact HC|]. unfold main_bootstrap.
  pose proof (main_arguments_run w n) as Ha. rewrite Hg in Ha.
  rewrite (bind_returns _ _ n _ _ _ Ha), (bind_returns _ _ n _ _ _ Hc).
  rewrite prepend_prepend. reflexivity.
Qed.

(** With a sandbox configuration and no SANDBOX marker, [main] is its
    bootstrap part: nothing of the dispatch block runs. *)
Lemma main_sandbox_branch w n cfg :
  JS.truthy_opt_string (env_SANDBOX w) = false →
  sandboxConfig w = Some cfg →
  main LOGIN_WITH_GOOGLE relaunchOnExitCode relaunchAppInChildProcess w n
  = main_bootstrap relaunchOnExitCode relaunchAppInChildProcess w n
  ∧ ∀ a, outcome (main_bootstrap relaunchOnExitCode
                    relaunchAppInChildProcess w n) ≠ Ret a.
Proof.
  intros Hs Hcfg.
  assert (Hno : ∀ a, outcome (main_bootstrap relaunchOnExitCode
                                relaunchAppInChildProcess w n) ≠ Ret a).
  { intros a. destruct (guard_fires w) eqn:Hg.
    - rewrite main_bootstrap_guard by exact Hg. discriminate.
    - destruct (main_bootstrap_run w n Hg) as (C & _ & ->).
      rewrite Hs. cbn [negb].
      destruct (main_relaunch_run w n) as (M & memoryArgs & _ & _ & _ & ->).
      rewrite Hcfg, !prepend_outcome. apply main_sandbox_no_return. }
  split; [|exact Hno]. unfold main. apply bind_no_return, Hno.
Qed.

End AnyHelpers.

(* ================================================================== *)
(** ** The run of the entry point with the specified helpers *)
(* ================================================================== *)

Lemma relaunch_Forall (P : Event → Prop) sentinel w e fuel n :
  P e → (∀ c, P (EvProcessExit c)) →
  Forall P (events (Relaunch.relaunchOnExitCode sentinel fuel (spawn w e) n)).
Proof.
  intros He Hexit.
  destruct (relaunch_cases sentinel w e fuel n)
    as [(k & _ & _ & _ & ->)|(_ & ->)]; cbn [events].
  - apply Forall_app. split; [apply Forall_replicate, He|].
    apply Forall_cons. split; [apply Hexit|apply Forall_nil_2].
  - apply Forall_replicate, He.
Qed.

Lemma main_sandbox_Forall (P : Event → Prop) sentinel fuel w cfg memoryArgs n :
  P (EvLoadCliConfig []) → P EvReadStdin →
  (∀ t, P (EvValidateAuthMethod t)) → (∀ t, P (EvRefreshAuth t)) →
  (∀ a, P (EvConsoleError a)) → (∀ c, P (EvProcessExit c)) →
  (∀ args, P (EvStartSandbox cfg memoryArgs args)) →
  Forall P (events (main_sandbox (Relaunch.relaunchOnExitCode sentinel fuel)
                      w cfg memoryArgs n)).
Proof.
  intros Hcfg Hread Hval Href Herr Hexit Hspawn.
  rewrite main_sandbox_run. cbv zeta. unfold authenticate_events.
  destruct (auth_required w) as [t|]; [destruct (auth_failure w t) as [err|]|];
    destruct (stdin_isTTY w);
    try destruct (JS.truthy_opt_string (validateAuthMethod w t));
    cbn [events prepend app];
    repeat (apply Forall_cons; split; [auto|]);
    try apply Forall_nil_2;
    apply relaunch_Forall; auto.
Qed.

(** Without the SANDBOX marker and past the guard, the program is its
    bootstrap part, which ends in the sandbox branch or in the plain
    relaunch loop. *)
Lemma program_run L sentinel fuel w n :
  JS.truthy_opt_string (env_SANDBOX w) = false →
  guard_fires w = false →
  ∃ C M memoryArgs,
    Forall (λ e, is_configure e = true) C
    ∧ Forall (λ e, is_memory_probe e = true ∨ ∃ m, e = EvConsoleDebug m) M
    ∧ (JS.truthy_opt_bool (advanced_autoConfigureMemory w) = false →
       M = [] ∧ memoryArgs = [])
    ∧ (JS.truthy_opt_bool (advanced_autoConfigureMemory w) = true →
       EvOsTotalmem ∈ M)
    ∧ program L sentinel fuel w n
      = main_bootstrap (Relaunch.relaunchOnExitCode sentinel fuel)
          (Relaunch.relaunchAppInChildProcess sentinel w fuel) w n
    ∧ program L sentinel fuel w n
      = prepend (arguments_events ++ C ++ M ++ [EvLoadSandboxConfig])
          (match sandboxConfig w with
           | Some cfg =>
               main_sandbox (Relaunch.relaunchOnExitCode sentinel fuel)
                 w cfg memoryArgs n
           | None =>
               Relaunch.relaunchOnExitCode sentinel fuel
                 (spawn w (EvSpawnChild memoryArgs [])) n
           end).
Proof.
  intros Hs Hg.
  destruct (main_bootstrap_run (Relaunch.relaunchOnExitCode sentinel fuel)
              (Relaunch.relaunchAppInChildProcess sentinel w fuel) w n Hg)
    as (C & HC & Hboot).
  destruct (main_relaunch_run (Relaunch.relaunchOnExitCode sentinel fuel)
              (Relaunch.relaunchAppInChildProcess sentinel w fuel) w n)
    as (M & memoryArgs & HM & Hoff & Hon & Hrel).
  exists C, M, memoryArgs. repeat (split; [assumption|]).
  rewrite Hs in Hboot. cbn [negb] in Hboot.
  rewrite Hrel, prepend_prepend, <- app_assoc in Hboot.
  unfold Relaunch.relaunchAppInChildProcess in Hboot at 2.
  assert (Heq : program L sentinel fuel w n
                = main_bootstrap (Relaunch.relaunchOnExitCode sentinel fuel)
                    (Relaunch.relaunchAppInChildProcess sentinel w fuel) w n).
  { unfold program, main. apply bind_no_return. intros a.
    rewrite Hboot, prepend_outcome.
    destruct (sandboxConfig w) as [cfg|];
      [apply main_sandbox_no_return|apply relaunch_no_return]. }
  split; [exact Heq|]. rewrite Heq. exact Hboot.
Qed.

Lemma program_guard L sentinel fuel w n :
  guard_fires w = true →
  program L sentinel fuel w n
  = mkRun (Exit 1)
      (arguments_events
       ++ [EvConsoleError [prompt_interactive_error]; EvProcessExit 1]) n.
Proof.
  intros Hg. unfold program, main.
  rewrite (bind_exits _ _ n _ _ _ (main_bootstrap_guard _ _ w n Hg)).
  reflexivity.
Qed.

Lemma configure_not_dispatch e : is_configure e = true → is_dispatch e = false.
Proof. destruct e; (discriminate || reflexivity). Qed.

Lemma memory_not_dispatch e :
  is_memory_probe e = true ∨ (∃ m, e = EvConsoleDebug m) → is_dispatch e = false.
Proof. intros [H|[m ->]]; [destruct e; (discriminate || reflexivity)|reflexivity]. Qed.

Lemma configure_not_spawn e :
  is_configure e = true → is_child_spawn e = false ∧ is_memory_probe e = false.
Proof. destruct e; (discriminate || (split; reflexivity)). Qed.

Lemma memory_not_spawn e :
  is_memory_probe e = true ∨ (∃ m, e = EvConsoleDebug m) →
  is_child_spawn e = false.
Proof. intros [H|[m ->]]; [destruct e; (discriminate || reflexivity)|reflexivity]. Qed.

(* ================================================================== *)
(** ** The flag-combination guard *)
(* ================================================================== *)

(** C6 does not hold as stated: on the sample machine with
    [--prompt-interactive] and piped input, the settings are loaded and
    migrated, the checkpoints cleaned up and the arguments parsed before
    the error is raised. *)
Lemma guard_error_not_first :
  guard_fires world_piped_interactive_flag = true
  ∧ ¬ guard_error_first (sample_run world_piped_interactive_flag)
  ∧ ∃ before,
      events (sample_run world_piped_interactive_flag)
      = before ++ [EvConsoleError [prompt_interactive_error];
                   EvProcessExit 1]
      ∧ EvLoadSettings ∈ before
      ∧ EvMigrateDeprecatedSettings ∈ before
      ∧ EvCleanupCheckpoints ∈ before
      ∧ EvParseArguments ∈ before.
Proof.
  split; [reflexivity|]. split.
  - intros [rest H]. vm_compute in H. discriminate.
  - exists arguments_events. split; [reflexivity|].
    unfold arguments_events. rewrite !elem_of_cons. tauto.
Qed.

(** C6, amended. When the interactive-prompt flag is supplied and
    standard input is not a terminal, the process prints the
    incompatibility message and exits with status 1 right after the
    arguments are parsed: the rejection handler, the loading and
    migration of the settings, the checkpoint cleanup, the session id and
    the argument parsing come before it, and nothing else runs, whatever
    the relaunch helpers are. *)
Theorem prompt_interactive_guard (L : string)
    (relaunchOnExitCode : Proc Z → Proc unit)
    (relaunchAppInChildProcess : list string → list string → Proc unit)
    (w : World) (n : nat) :
  JS.truthy_opt_string (argv_promptInteractive w) = true →
  stdin_isTTY w = false →
  main L relaunchOnExitCode relaunchAppInChildProcess w n
  = mkRun (Exit 1)
      [EvSetupUnhandledRejectionHandler; EvLoadSettings;
       EvMigrateDeprecatedSettings; EvCleanupCheckpoints; EvRandomUUID;
       EvParseArguments;
       EvConsoleError [prompt_interactive_error]; EvProcessExit 1] n.
Proof.
  intros Hp Htty.
  assert (Hg : guard_fires w = true)
    by (unfold guard_fires; rewrite Hp, Htty; reflexivity).
  unfold main.
  rewrite (bind_exits _ _ n _ _ _ (main_bootstrap_guard _ _ w n Hg)).
  reflexivity.
Qed.

Lemma prompt_interactive_guard_sample :
  outcome (sample_run world_piped_interactive_flag) = Exit 1.
Proof.
  unfold sample_run, start, program.
  rewrite (prompt_interactive_guard "oauth-personal" _ _
             world_piped_interactive_flag 0);
    reflexivity.
Defined.

(* ================================================================== *)
(** ** The relaunch decision *)
(* ================================================================== *)

Section ReturningProtocol.

Variable relaunchOnExitCode : Proc Z → Proc unit.

(** A protocol that hands control back to its caller. *)
Hypothesis protocol_returns :
  ∀ runner n, ∃ evs n', relaunchOnExitCode runner n = mkRun (Ret tt) evs n'.

Lemma main_sandbox_returning w cfg memoryArgs n :
  (∀ t, auth_required w = Some t → auth_failure w t = None) →
  ∃ evs n', main_sandbox relaunchOnExitCode w cfg memoryArgs n
            = mkRun (Exit 0) (evs ++ [EvProcessExit 0]) n'.
Proof.
  intros Hauth. unfold main_sandbox.
  rewrite (bind_returns _ _ n tt [EvLoadCliConfig []] n) by reflexivity.
  assert (Ha : ∃ evs, main_authenticate w n = mkRun (Ret tt) evs n).
  { rewrite main_authenticate_run.
    destruct (auth_required w) as [t|]; [|eauto].
    rewrite (Hauth t eq_refl). eauto. }
  destruct Ha as (evs1 & Ha). rewrite (bind_returns _ _ n _ _ _ Ha).
  assert (Hs : ∃ text evs,
             (if negb (stdin_isTTY w)
              then emit EvReadStdin;; ret (stdin_text w)
              else ret EmptyString) n = mkRun (Ret text) evs n)
    by (destruct (stdin_isTTY w); cbn [negb]; eauto).
  destruct Hs as (text & evs2 & Hs). rewrite (bind_returns _ _ n _ _ _ Hs).
  cbv zeta.
  destruct (protocol_returns
              (start_sandbox w cfg memoryArgs
                 (injectStdinIntoArgs (process_argv w) (Some text))) n)
    as (evs3 & n' & Hr).
  rewrite (bind_returns _ _ n _ _ _ Hr).
  exists ([EvLoadCliConfig []] ++ evs1 ++ evs2 ++ evs3), n'.
  unfold prepend, process_exit. cbn [outcome events spawned].
  rewrite <- !app_assoc. reflexivity.
Qed.

End ReturningProtocol.

(** C1 does not hold as stated: on the sample machine with a sandbox
    configuration and an authentication method that fails validation,
    the process starts without the SANDBOX marker and exits with status
    1 although no child was ever spawned. *)
Lemma relaunch_exit_not_from_child :
  JS.truthy_opt_string (env_SANDBOX world_failing_auth) = false
  ∧ outcome (sample_run world_failing_auth) = Exit 1
  ∧ spawned (sample_run world_failing_auth) = 0%nat
  ∧ ¬ ends_by_child world_failing_auth (sample_run world_failing_auth).
Proof.
  split; [reflexivity|]. split; [reflexivity|]. split; [reflexivity|].
  unfold ends_by_child.
  change (outcome (sample_run world_failing_auth)) with (@Exit unit 1).
  change (spawned (sample_run world_failing_auth)) with 0%nat.
  intros (k & Hk & _). lia.
Qed.

(** C1, amended. Let the SANDBOX marker be absent.
    With the relaunch helpers of the specification the run is that of
    the bootstrap part of [main]: no action of the dispatch block
    happens, and the process either exits with status 1 without
    spawning (the flag guard fired or the pre-sandbox authentication
    failed), or exits with the first exit code of a child that is not
    the sentinel, or is still relaunching because every child so far
    returned the sentinel.
    With a sandbox configuration this needs nothing of the protocol:
    whatever [relaunchOnExitCode] does, [main] never gets past the
    sandbox block; and when the protocol returns (guard and
    authentication passed), the process exits with status 0 as its last
    action. *)
Theorem relaunch_never_dispatches (L : string) (sentinel : Z) (fuel : nat)
    (w : World) (n : nat) :
  JS.truthy_opt_string (env_SANDBOX w) = false →
  (let r := program L sentinel fuel w n in
   r = main_bootstrap (Relaunch.relaunchOnExitCode sentinel fuel)
         (Relaunch.relaunchAppInChildProcess sentinel w fuel) w n
   ∧ Forall (λ e, is_dispatch e = false) (events r)
   ∧ ((outcome r = Exit 1 ∧ spawned r = n)
      ∨ (∃ k, (k < fuel)%nat
              ∧ (∀ j, (j < k)%nat → child_exit w (n + j) = sentinel)
              ∧ child_exit w (n + k) ≠ sentinel
              ∧ outcome r = Exit (child_exit w (n + k))
              ∧ spawned r = (n + S k)%nat)
      ∨ (outcome r = Pending ∧ spawned r = (n + fuel)%nat
         ∧ ∀ j, (j < fuel)%nat → child_exit w (n + j) = sentinel)))
  ∧ (∀ relaunchOnExitCode relaunchAppInChildProcess cfg,
       sandboxConfig w = Some cfg →
       let r := main L relaunchOnExitCode relaunchAppInChildProcess w n in
       r = main_bootstrap relaunchOnExitCode relaunchAppInChildProcess w n
       ∧ (∀ a, outcome r ≠ Ret a)
       ∧ (guard_fires w = false →
          (∀ t, auth_required w = Some t → auth_failure w t = None) →
          (∀ runner m, ∃ evs m',
              relaunchOnExitCode runner m = mkRun (Ret tt) evs m') →
          outcome r = Exit 0
          ∧ ∃ evs, events r = evs ++ [EvProcessExit 0])).
Proof.
  intros Hs. split.
  - cbv zeta. destruct (guard_fires w) eqn:Hg.
    + rewrite main_bootstrap_guard by exact Hg.
      rewrite program_guard by exact Hg. cbn [outcome events spawned].
      split; [reflexivity|]. split; [|left; split; reflexivity].
      repeat (apply Forall_cons; split; [reflexivity|]). apply Forall_nil_2.
    + destruct (program_run L sentinel fuel w n Hs Hg)
        as (C & M & memoryArgs & HC & HM & _ & _ & Hboot & Hrun).
      split; [exact Hboot|]. rewrite Hrun. clear Hboot Hrun. split.
      * unfold prepend. cbn [events]. rewrite !Forall_app.
        split; [|destruct (sandboxConfig w) as [cfg|];
                  [apply main_sandbox_Forall|apply relaunch_Forall];
                  reflexivity].
        split; [repeat (apply Forall_cons; split; [reflexivity|]);
                apply Forall_nil_2|].
        split; [eapply Forall_impl; [exact HC|apply configure_not_dispatch]|].
        split; [eapply Forall_impl; [exact HM|apply memory_not_dispatch]|].
        apply Forall_cons. split; [reflexivity|apply Forall_nil_2].
      * unfold prepend. cbn [outcome spawned].
        assert (Hloop : ∀ e,
          let r := Relaunch.relaunchOnExitCode sentinel fuel (spawn w e) n in
          (∃ k, (k < fuel)%nat
                ∧ (∀ j, (j < k)%nat → child_exit w (n + j) = sentinel)
                ∧ child_exit w (n + k) ≠ sentinel
                ∧ outcome r = Exit (child_exit w (n + k))
                ∧ spawned r = (n + S k)%nat)
          ∨ (outcome r = Pending ∧ spawned r = (n + fuel)%nat
             ∧ ∀ j, (j < fuel)%nat → child_exit w (n + j) = sentinel)).
        { intros e. cbv zeta.
          destruct (relaunch_cases sentinel w e fuel n)
            as [(k & Hk & Hb & Hl & ->)|(Hall & ->)];
            cbn [outcome spawned]; [left; exists k|right]; auto. }
        destruct (sandboxConfig w) as [cfg|]; [|right; apply Hloop].
        rewrite main_sandbox_run. cbv zeta.
        destruct (auth_required w) as [t|];
          [destruct (auth_failure w t) as [err|]|].
        -- left. split; reflexivity.
        -- right. apply Hloop.
        -- right. apply Hloop.
  - intros rl rapp cfg Hcfg. cbv zeta.
    destruct (main_sandbox_branch L rl rapp w n cfg Hs Hcfg) as [Hmain Hno].
    split; [exact Hmain|]. rewrite Hmain. split; [exact Hno|].
    intros Hg Hauth Hret.
    destruct (main_bootstrap_run rl rapp w n Hg) as (C & _ & ->).
    rewrite Hs. cbn [negb].
    destruct (main_relaunch_run rl rapp w n) as (M & memoryArgs & _ & _ & _ & ->).
    rewrite Hcfg.
    destruct (main_sandbox_returning rl Hret w cfg memoryArgs n Hauth)
      as (evs & n' & ->).
    unfold prepend. cbn [outcome events]. split; [reflexivity|].
    exists ((arguments_events ++ C) ++ (M ++ [EvLoadSandboxConfig]) ++ evs).
    rewrite <- !app_assoc. reflexivity.
Qed.

(** The sample machine with a sandbox configuration: the children exit
    with 42, 42 and 5, and so does the process with 5 after three
    spawns. *)
Lemma relaunch_never_dispatches_sample :
  JS.truthy_opt_string (env_SANDBOX world_sandbox) = false
  ∧ Forall (λ e, is_dispatch e = false) (events (sample_run world_sandbox))
  ∧ outcome (sample_run world_sandbox) = Exit 5
  ∧ spawned (sample_run world_sandbox) = 3%nat.
Proof.
  split; [reflexivity|]. split; [|split; reflexivity].
  apply (relaunch_never_dispatches "oauth-personal" 42 10 world_sandbox 0).
  reflexivity.
Defined.

(* ================================================================== *)
(** ** Authentication before the sandbox *)
(* ================================================================== *)

Lemma bootstrap_prefix_no_spawn (C M : list Event) :
  Forall (λ e, is_configure e = true) C →
  Forall (λ e, is_memory_probe e = true ∨ ∃ m, e = EvConsoleDebug m) M →
  Forall (λ e, is_child_spawn e = false)
    (arguments_events ++ C ++ M ++ [EvLoadSandboxConfig]).
Proof.
  intros HC HM. rewrite !Forall_app.
  split; [repeat (apply Forall_cons; split; [reflexivity|]);
          apply Forall_nil_2|].
  split; [eapply Forall_impl; [exact HC|intros e; apply configure_not_spawn]|].
  split; [eapply Forall_impl; [exact HM|apply memory_not_spawn]|].
  apply Forall_cons. split; [reflexivity|apply Forall_nil_2].
Qed.

(** C5. In a run without the SANDBOX marker that passes the flag guard,
    with a sandbox configuration, a selected authentication method [t]
    and no external delegation: the method is validated before any
    child is spawned. If the validation reports an error, or the
    validation passes and the refresh throws, the process prints
    [Error authenticating:] with the error and exits with status 1;
    no child is spawned in that run. If both pass, validation and
    refresh are followed by the first launch of the sandbox, and no
    child was spawned before them. *)
Theorem sandbox_auth_first (L : string) (sentinel : Z) (fuel : nat)
    (w : World) (n : nat) (cfg : SandboxConfig) (t : string) :
  JS.truthy_opt_string (env_SANDBOX w) = false →
  guard_fires w = false →
  sandboxConfig w = Some cfg →
  auth_selectedType w = Some t →
  JS.truthy_string t = true →
  JS.truthy_opt_bool (auth_useExternal w) = false →
  let r := program L sentinel fuel w n in
  (∃ pre post, events r = pre ++ EvValidateAuthMethod t :: post
               ∧ Forall (λ e, is_child_spawn e = false) pre)
  ∧ (∀ err, (validateAuthMethod w t = Some err ∧ JS.truthy_string err = true)
            ∨ (JS.truthy_opt_string (validateAuthMethod w t) = false
               ∧ refreshAuth_throws w t = Some err) →
       outcome r = Exit 1 ∧ spawned r = n
       ∧ Forall (λ e, is_child_spawn e = false) (events r)
       ∧ ∃ pre, events r
                = pre ++ [EvConsoleError ["Error authenticating:"; err];
                          EvProcessExit 1])
  ∧ (JS.truthy_opt_string (validateAuthMethod w t) = false →
     refreshAuth_throws w t = None →
     ∃ pre post,
       events r = pre ++ [EvValidateAuthMethod t; EvRefreshAuth t] ++ post
       ∧ Forall (λ e, is_child_spawn e = false) pre
       ∧ ((0 < fuel)%nat →
          ∃ memoryArgs,
            EvStartSandbox cfg memoryArgs
              (injectStdinIntoArgs (process_argv w) (Some (captured_stdin w)))
            ∈ post)).
Proof.
  intros Hs Hg Hcfg Hsel Ht Hext r. subst r.
  destruct (program_run L sentinel fuel w n Hs Hg)
    as (C & M & memoryArgs & HC & HM & _ & _ & _ & ->).
  pose proof (bootstrap_prefix_no_spawn C M HC HM) as Hpre.
  set (pre0 := arguments_events ++ C ++ M ++ [EvLoadSandboxConfig]) in *.
  rewrite Hcfg, main_sandbox_run. cbv zeta.
  assert (Hreq : auth_required w = Some t)
    by (unfold auth_required; rewrite Hsel, Ht, Hext; reflexivity).
  rewrite Hreq. unfold auth_failure, authenticate_events.
  assert (Hpre1 : Forall (λ e, is_child_spawn e = false)
                    (pre0 ++ [EvLoadCliConfig []])).
  { apply Forall_app. split; [exact Hpre|].
    apply Forall_cons. split; [reflexivity|apply Forall_nil_2]. }
  split; [|split].
  - exists (pre0 ++ [EvLoadCliConfig []]).
    destruct (JS.truthy_opt_string (validateAuthMethod w t)) eqn:Hv;
      [destruct (validateAuthMethod w t) as [err|]; [|discriminate]
      |destruct (refreshAuth_throws w t) as [err|]];
      unfold prepend; cbn [events app];
      eexists; (split; [rewrite <- app_assoc; reflexivity|exact Hpre1]).
  - intros err [[Hval Herr]|[Hv Href]].
    + rewrite Hval. cbn [JS.truthy_opt_string]. unfold JS.truthy_opt_string.
      rewrite Herr. unfold prepend. cbn [outcome events spawned app].
      split; [reflexivity|]. split; [reflexivity|]. split.
      * apply Forall_app. split; [exact Hpre|].
        repeat (apply Forall_cons; split; [reflexivity|]). apply Forall_nil_2.
      * exists (pre0 ++ [EvLoadCliConfig []; EvValidateAuthMethod t]).
        rewrite <- app_assoc. reflexivity.
    + rewrite Hv, Href. unfold prepend. cbn [outcome events spawned app].
      split; [reflexivity|]. split; [reflexivity|]. split.
      * apply Forall_app. split; [exact Hpre|].
        repeat (apply Forall_cons; split; [reflexivity|]). apply Forall_nil_2.
      * exists (pre0 ++ [EvLoadCliConfig []; EvValidateAuthMethod t;
                         EvRefreshAuth t]).
        rewrite <- app_assoc. reflexivity.
  - intros Hv Href. rewrite Hv, Href.
    exists (pre0 ++ [EvLoadCliConfig []]). eexists.
    split; [|split; [exact Hpre1|]].
    + unfold prepend. cbn [events app]. rewrite <- !app_assoc. reflexivity.
    + intros Hfuel. exists memoryArgs.
      apply elem_of_app. right.
      destruct fuel as [|fuel']; [lia|].
      destruct (decide (child_exit w n = sentinel)) as [Heq|Hne].
      * rewrite relaunch_step_again by exact Heq. cbn [events].
        apply list_elem_of_here.
      * rewrite relaunch_step_exit by exact Hne. cbn [events].
        apply list_elem_of_here.
Qed.

(** On the sample machine the rejected method ends the run with status
    1 before any child exists. *)
Lemma sandbox_auth_first_sample :
  outcome (sample_run world_failing_auth) = Exit 1
  ∧ spawned (sample_run world_failing_auth) = 0%nat
  ∧ Forall (λ e, is_child_spawn e = false)
      (events (sample_run world_failing_auth)).
Proof.
  assert (H := sandbox_auth_first "oauth-personal" 42 10 world_failing_auth 0
                 sample_sandbox "openai").
  cbv zeta in H.
  destruct H as (_ & H & _); try reflexivity.
  destruct (H "missing API key") as (Ho & Hn & Hall & _).
  - left. split; reflexivity.
  - split; [exact Ho|]. split; [exact Hn|exact Hall].
Defined.

(* ================================================================== *)
(** ** The memory flags handed to the child *)
(* ================================================================== *)

Lemma configure_no_memory e :
  is_configure e = true →
  is_memory_probe e = false
  ∧ (spawn_memoryArgs e = None ∨ spawn_memoryArgs e = Some []).
Proof. destruct e; (discriminate || (split; [reflexivity|left; reflexivity])). Qed.

Lemma relaunch_first_spawn sentinel fuel w e n :
  (0 < fuel)%nat →
  e ∈ events (Relaunch.relaunchOnExitCode sentinel fuel (spawn w e) n).
Proof.
  intros Hfuel. destruct fuel as [|fuel']; [lia|].
  destruct (decide (child_exit w n = sentinel)) as [Heq|Hne].
  - rewrite relaunch_step_again by exact Heq. apply list_elem_of_here.
  - rewrite relaunch_step_exit by exact Hne. apply list_elem_of_here.
Qed.

(** Without memory auto-configuration no run probes the memory, and
    every child is spawned with an empty list of memory flags. *)
Lemma program_without_memory L sentinel fuel w n :
  JS.truthy_opt_string (env_SANDBOX w) = false →
  JS.truthy_opt_bool (advanced_autoConfigureMemory w) = false →
  Forall (λ e, is_memory_probe e = false
               ∧ (spawn_memoryArgs e = None ∨ spawn_memoryArgs e = Some []))
    (events (program L sentinel fuel w n)).
Proof.
  intros Hs Hoff. destruct (guard_fires w) eqn:Hg.
  - rewrite program_guard by exact Hg. cbn [events].
    repeat (apply Forall_cons; split; [split; [reflexivity|left; reflexivity]|]).
    apply Forall_nil_2.
  - destruct (program_run L sentinel fuel w n Hs Hg)
      as (C & M & memoryArgs & HC & _ & HM & _ & _ & ->).
    destruct (HM Hoff) as [-> ->]. unfold prepend. cbn [events].
    rewrite !Forall_app.
    split; [|destruct (sandboxConfig w) as [cfg|];
              [apply main_sandbox_Forall|apply relaunch_Forall];
              intros; split;
              solve [reflexivity | left; reflexivity | right; reflexivity]].
    split; [repeat (apply Forall_cons;
                    split; [split; [reflexivity|left; reflexivity]|]);
            apply Forall_nil_2|].
    split; [eapply Forall_impl; [exact HC|apply configure_no_memory]|].
    split; [apply Forall_nil_2|].
    apply Forall_cons. split; [|apply Forall_nil_2].
    split; [reflexivity|left; reflexivity].
Qed.

(** C10. In a process start without the SANDBOX marker the memory
    calculator runs only if [advanced.autoConfigureMemory] is enabled.
    When the setting is absent or false, no action of the run probes the
    memory, and every spawn of the run, of the sandbox as of the plain
    child, carries the empty list of memory flags, whatever the total
    memory and the heap limit are; past the guard (and, with a sandbox,
    past authentication) such a spawn does happen. *)
Theorem memory_flags_only_when_enabled (L : string) (sentinel : Z)
    (fuel : nat) (w : World) (n : nat) :
  JS.truthy_opt_string (env_SANDBOX w) = false →
  let r := program L sentinel fuel w n in
  (∀ e, e ∈ events r → is_memory_probe e = true →
        JS.truthy_opt_bool (advanced_autoConfigureMemory w) = true)
  ∧ (JS.truthy_opt_bool (advanced_autoConfigureMemory w) = false →
     (∀ e, e ∈ events r → is_memory_probe e = false)
     ∧ (∀ cfg memoryArgs args,
          EvStartSandbox cfg memoryArgs args ∈ events r → memoryArgs = [])
     ∧ (∀ nodeArgs scriptArgs,
          EvSpawnChild nodeArgs scriptArgs ∈ events r → nodeArgs = [])
     ∧ (guard_fires w = false → (0 < fuel)%nat →
        match sandboxConfig w with
        | None => EvSpawnChild [] [] ∈ events r
        | Some cfg =>
            (∀ t, auth_required w = Some t → auth_failure w t = None) →
            EvStartSandbox cfg []
              (injectStdinIntoArgs (process_argv w) (Some (captured_stdin w)))
            ∈ events r
        end)).
Proof.
  intros Hs r.
  assert (Hoff : JS.truthy_opt_bool (advanced_autoConfigureMemory w) = false →
                 ∀ e, e ∈ events r →
                   is_memory_probe e = false
                   ∧ (spawn_memoryArgs e = None ∨ spawn_memoryArgs e = Some [])).
  { intros Hoff. apply Forall_forall.
    apply program_without_memory; assumption. }
  split.
  - intros e He Hprobe.
    destruct (JS.truthy_opt_bool (advanced_autoConfigureMemory w)) eqn:Hauto;
      [reflexivity|].
    destruct (Hoff eq_refl e He) as [Hno _]. congruence.
  - intros Hauto. specialize (Hoff Hauto).
    split; [intros e He; apply (Hoff e He)|].
    split; [|split].
    + intros cfg memoryArgs args He.
      destruct (Hoff _ He) as [_ [H|H]]; cbn in H; congruence.
    + intros nodeArgs scriptArgs He.
      destruct (Hoff _ He) as [_ [H|H]]; cbn in H; congruence.
    + intros Hg Hfuel. subst r.
      destruct (program_run L sentinel fuel w n Hs Hg)
        as (C & M & memoryArgs & _ & _ & HM & _ & _ & ->).
      destruct (HM Hauto) as [-> ->]. unfold prepend. cbn [events].
      destruct (sandboxConfig w) as [cfg|].
      * intros Hauth. apply elem_of_app. right.
        rewrite main_sandbox_run. cbv zeta.
        destruct (auth_required w) as [t|];
          [rewrite (Hauth t eq_refl)|];
          unfold prepend; cbn [events]; apply elem_of_app; right;
          apply relaunch_first_spawn, Hfuel.
      * apply elem_of_app. right. apply relaunch_first_spawn, Hfuel.
Qed.

(** The sample machines have no memory setting: both the sandbox and
    the plain child are spawned without memory flags. *)
Lemma memory_flags_only_when_enabled_sample :
  EvSpawnChild [] [] ∈ events (sample_run world_plain)
  ∧ EvStartSandbox sample_sandbox []
      (injectStdinIntoArgs ["node"; "cli.js"] (Some "ctx"))
    ∈ events (sample_run world_sandbox).
Proof.
  split.
  - assert (H := memory_flags_only_when_enabled "oauth-personal" 42 10
                   world_plain 0).
    cbv zeta in H. destruct H as (_ & H); [reflexivity|].
    destruct H as (_ & _ & _ & H); [reflexivity|].
    apply H; [reflexivity|lia].
  - assert (H := memory_flags_only_when_enabled "oauth-personal" 42 10
                   world_sandbox 0).
    cbv zeta in H. destruct H as (_ & H); [reflexivity|].
    destruct H as (_ & _ & _ & H); [reflexivity|].
    apply H; [reflexivity|lia|].
    intros t Ht. injection Ht as <-. reflexivity.
Defined.

(* ================================================================== *)
(** ** The non-interactive path *)
(* ================================================================== *)

(** Membership in an explicit list of events. *)
Ltac solve_elem :=
  rewrite ?elem_of_cons, ?elem_of_nil;
  solve [ intuition (discriminate || congruence || eauto) ].

(** Membership in the events of a closed run. *)
Ltac compute_elem :=
  apply list_elem_of_In; vm_compute;
  repeat first [left; reflexivity | right].

Lemma main_nonInteractive_run w n :
  main_nonInteractive w (config_getQuestion w) n
  = let reading := if stdin_isTTY w then [] else [EvReadStdin] in
    if JS.truthy_string (merged_input w) then
      mkRun (Exit 0)
        (EvConfigInitialize :: reading
         ++ [EvLogUserPrompt (merged_input w) (random_prompt_id w);
             EvValidateNonInteractiveAuth]
         ++ (if config_getDebugMode w
             then [EvConsoleLog ["Session ID: %s"; sessionId w]] else [])
         ++ [EvRunNonInteractive (merged_input w) (random_prompt_id w);
             EvRunExitCleanup; EvProcessExit 0]) n
    else
      mkRun (Exit 1)
        (EvConfigInitialize :: reading
         ++ [EvConsoleError [no_input_error]; EvProcessExit 1]) n.
Proof.
  unfold main_nonInteractive, merged_input, when. cbv zeta.
  destruct (stdin_isTTY w); cbn [negb andb];
    [|destruct (JS.truthy_string (stdin_text w)) eqn:Hstdin].
  - run_proc. repeat destruct_cond; reflexivity.
  - rewrite (bind_returns _ _ n tt [EvConfigInitialize] n) by reflexivity.
    rewrite (bind_returns _ _ n
               (stdin_text w +:+ JS.nlnl +:+ config_getQuestion w)
               [EvReadStdin] n) by reflexivity.
    rewrite (truthy_string_append _ _ Hstdin). cbn [negb].
    run_proc. repeat destruct_cond; reflexivity.
  - run_proc. repeat destruct_cond; reflexivity.
Qed.

Lemma main_dispatch_nonInteractive L w n :
  config_getListExtensions w = false →
  config_isInteractive w = false →
  config_getExperimentalZedIntegration w = false →
  main_dispatch L w n
  = prepend
      ([EvLoadExtensions; EvLoadCliConfig (extensions w);
        EvSetMaxSizedBoxDebugging (argv_isDebugMode w); EvInitializeApp]
       ++ (if bool_decide (auth_selectedType w = Some L)
              && config_isBrowserLaunchSuppressed w
           then [EvGetOauthClient L] else [])
       ++ [EvGetStartupWarnings; EvGetUserStartupWarnings])
      (main_nonInteractive w (config_getQuestion w) n).
Proof.
  intros Hlist Hint Hzed. unfold main_dispatch, when.
  rewrite Hlist, Hint, Hzed. cbn [andb]. cbv zeta.
  generalize (main_nonInteractive w (config_getQuestion w)). intros m.
  destruct_cond; unfold mbind, proc_bind, bind, prepend;
    cbn [emit ret outcome events spawned app];
    destruct (m n) as [[[]|c|] evs n']; reflexivity.
Qed.

(** C7 does not hold as stated: in the one-shot run with the question
    ["hi"] on the command line and ["ctx"] piped in, standard input is
    read although a question was supplied, and the pipeline receives
    the piped text, a blank line and the question. *)
Lemma stdin_read_despite_question :
  config_getQuestion world_batch = "hi"
  ∧ EvReadStdin ∈ events (sample_run world_batch)
  ∧ EvRunNonInteractive ("ctx" +:+ JS.nlnl +:+ "hi") "8f3a"
    ∈ events (sample_run world_batch)
  ∧ ¬ stdin_read_iff_no_question world_batch (sample_run world_batch).
Proof.
  assert (Hread : EvReadStdin ∈ events (sample_run world_batch)).
  { compute_elem. }
  split; [reflexivity|]. split; [exact Hread|]. split.
  - compute_elem.
  - intros [H _]. destruct (H Hread) as [Hq _]. discriminate.
Qed.

(** C7, amended. On the non-interactive path standard input is read if
    and only if it is not a terminal, whether or not a question was
    supplied; a non-empty text read from it is put before the (possibly
    empty) question, separated by a blank line, and the result is the
    input [main] goes on with: it is the prompt that is logged and the
    only input the pipeline is ever invoked with. If the input is empty
    after the merge, the process prints the no-input error and exits
    with status 1 without invoking the pipeline. *)
Theorem nonInteractive_input (L : string) (w : World) (n : nat) :
  config_getListExtensions w = false →
  config_isInteractive w = false →
  config_getExperimentalZedIntegration w = false →
  let r := main_dispatch L w n in
  (EvReadStdin ∈ events r ↔ stdin_isTTY w = false)
  ∧ (stdin_isTTY w = false → stdin_text w ≠ EmptyString →
     merged_input w = stdin_text w +:+ JS.nlnl +:+ config_getQuestion w)
  ∧ (stdin_isTTY w = true ∨ stdin_text w = EmptyString →
     merged_input w = config_getQuestion w)
  ∧ (merged_input w = EmptyString →
     outcome r = Exit 1
     ∧ (∃ pre, events r
               = pre ++ [EvConsoleError [no_input_error]; EvProcessExit 1])
     ∧ ∀ input id, EvRunNonInteractive input id ∉ events r)
  ∧ (merged_input w ≠ EmptyString →
     (EvConsoleError [no_input_error] ∉ events r)
     ∧ EvLogUserPrompt (merged_input w) (random_prompt_id w) ∈ events r)
  ∧ (∀ input id, EvRunNonInteractive input id ∈ events r →
       input = merged_input w ∧ merged_input w ≠ EmptyString).
Proof.
  intros Hlist Hint Hzed r. subst r.
  rewrite (main_dispatch_nonInteractive L w n Hlist Hint Hzed).
  rewrite main_nonInteractive_run. cbv zeta.
  split; [|split; [|split; [|split; [|split]]]].
  - destruct (stdin_isTTY w);
      repeat destruct_cond; unfold prepend; cbn [events app];
      split; solve_elem.
  - intros Htty Hstdin. unfold merged_input.
    rewrite Htty, (truthy_string_true _ Hstdin). reflexivity.
  - intros [Htty| Hstdin]; unfold merged_input.
    + rewrite Htty. reflexivity.
    + apply truthy_string_false in Hstdin. rewrite Hstdin, andb_false_r.
      reflexivity.
  - intros Hempty. apply truthy_string_false in Hempty. rewrite Hempty.
    unfold prepend. cbn [outcome events]. split; [reflexivity|]. split.
    + eexists. rewrite app_comm_cons, !app_assoc. reflexivity.
    + intros input id.
      destruct (stdin_isTTY w); repeat destruct_cond; cbn [app]; solve_elem.
  - intros Hinput. rewrite (truthy_string_true _ Hinput).
    unfold prepend. cbn [events].
    destruct (stdin_isTTY w); repeat destruct_cond; cbn [app];
      split; solve_elem.
  - intros input id.
    destruct (JS.truthy_string (merged_input w)) eqn:Hinput;
      unfold prepend; cbn [events];
      destruct (stdin_isTTY w); repeat destruct_cond; cbn [app];
      rewrite ?elem_of_cons, ?elem_of_nil; intros Hin;
      repeat (destruct Hin as [Hin|Hin]; try discriminate);
      try (destruct Hin; fail);
      injection Hin as -> _; (split; [reflexivity|]);
      intros Hempty; apply truthy_string_false in Hempty; congruence.
Qed.

(** The one-shot sample run: the piped text and the question are merged
    and logged as the prompt. *)
Lemma nonInteractive_input_sample :
  merged_input world_batch = "ctx" +:+ JS.nlnl +:+ "hi"
  ∧ EvLogUserPrompt ("ctx" +:+ JS.nlnl +:+ "hi") "8f3a"
    ∈ events (main_dispatch "oauth-personal" world_batch 0).
Proof.
  assert (H := nonInteractive_input "oauth-personal" world_batch 0).
  cbv zeta in H. destruct H as (_ & Hm & _ & _ & Hlog & _); try reflexivity.
  split.
  - apply Hm; [reflexivity|discriminate].
  - apply Hlog. discriminate.
Defined.

(* ================================================================== *)
(** ** The keyboard-protocol detection *)
(* ================================================================== *)

Lemma always_after_sound d x l :
  always_after d x l = true →
  ∀ l1 e l2, l = l1 ++ e :: l2 → x e = true → ∃ e', e' ∈ l1 ∧ d e' = true.
Proof.
  induction l as [|a l IH]; intros Hl l1 e l2 Heq Hx.
  - destruct l1; discriminate.
  - destruct l1 as [|a' l1]; cbn in Heq; injection Heq as -> ->.
    + cbn in Hl. rewrite Hx in Hl. discriminate.
    + cbn in Hl. destruct (x a'); [discriminate|].
      destruct (d a') eqn:Hd.
      * exists a'. split; [apply list_elem_of_here|exact Hd].
      * destruct (IH Hl l1 e l2 eq_refl Hx) as (e' & He' & Hde').
        exists e'. split; [apply list_elem_of_further, He'|exact Hde'].
Qed.

Lemma always_after_none d x l :
  Forall (λ e, x e = false) l → always_after d x l = true.
Proof.
  induction 1 as [|a l Ha _ IH]; [reflexivity|].
  cbn. rewrite Ha, IH. destruct (d a); reflexivity.
Qed.

Lemma for_each_log_run (names : list string) n :
  for_each (λ name, emit (EvConsoleLog ["- " +:+ name])) names n
  = mkRun (Ret tt) (map (λ name, EvConsoleLog ["- " +:+ name]) names) n.
Proof.
  induction names as [|name names IH]; [reflexivity|].
  cbn [for_each map].
  rewrite (bind_returns _ _ n tt [EvConsoleLog ["- " +:+ name]] n)
    by reflexivity.
  rewrite IH. reflexivity.
Qed.

(** Listing the extensions ends the process before anything else of the
    dispatch block. *)
Lemma main_dispatch_listExtensions L w n :
  config_getListExtensions w = true →
  main_dispatch L w n
  = mkRun (Exit 0)
      ([EvLoadExtensions; EvLoadCliConfig (extensions w);
        EvConsoleLog ["Installed extensions:"]]
       ++ map (λ name, EvConsoleLog ["- " +:+ name]) (extensions w)
       ++ [EvProcessExit 0]) n.
Proof.
  intros Hlist. unfold main_dispatch. rewrite Hlist.
  rewrite (bind_returns _ _ n tt [EvLoadExtensions] n) by reflexivity.
  rewrite (bind_returns _ _ n tt [EvLoadCliConfig (extensions w)] n)
    by reflexivity.
  erewrite (bind_exits _ _ n 0%Z); [reflexivity|].
  rewrite (bind_returns _ _ n tt [EvConsoleLog ["Installed extensions:"]] n)
    by reflexivity.
  rewrite (bind_returns _ _ n _ _ _ (for_each_log_run (extensions w) n)).
  reflexivity.
Qed.

Lemma listExtensions_quiet (x : Event → bool) (exts : list string) :
  x EvLoadExtensions = false → x (EvLoadCliConfig exts) = false →
  (∀ a, x (EvConsoleLog a) = false) → (∀ c, x (EvProcessExit c) = false) →
  Forall (λ e, x e = false)
    ([EvLoadExtensions; EvLoadCliConfig exts;
      EvConsoleLog ["Installed extensions:"]]
     ++ map (λ name, EvConsoleLog ["- " +:+ name]) exts
     ++ [EvProcessExit 0]).
Proof.
  intros H1 H2 H3 H4. rewrite !Forall_app. split; [|split].
  - repeat (apply Forall_cons; split; [auto|]). apply Forall_nil_2.
  - apply Forall_map. apply Forall_forall. intros name _. apply H3.
  - apply Forall_cons. split; [apply H4|apply Forall_nil_2].
Qed.

(** In an interactive run on a terminal that is not in raw mode, every
    event of class [x] comes after one of class [d], for the two
    orderings of the detection. *)
Lemma main_dispatch_interactive_order L w n :
  config_isInteractive w = true → stdin_isTTY w = true →
  stdin_isRaw w = false →
  always_after is_kitty_start is_startup_load (events (main_dispatch L w n))
  = true
  ∧ always_after (is_kitty_result (kitty_detection w)) is_ui_construction
      (events (main_dispatch L w n)) = true.
Proof.
  intros Hint Htty Hraw.
  destruct (config_getListExtensions w) eqn:Hlist.
  - rewrite (main_dispatch_listExtensions L w n Hlist). cbn [events].
    split; apply always_after_none, listExtensions_quiet; reflexivity.
  - unfold main_dispatch, startInteractiveUI, await_kitty, when.
    rewrite Hlist, Hint, Htty, Hraw. cbn [negb andb].
    destruct (kitty_detection w) as [[|]|];
      repeat destruct_cond; run_proc; split; reflexivity.
Qed.

(** C8. In an interactive run on a terminal that is not already in raw
    mode, the keyboard-protocol detection is started before the
    configuration is initialized and before the startup warnings are
    collected, and every action of the UI construction comes after the
    detection has resolved: without a resolved result the UI is never
    constructed and the run stays pending at the await. When the
    detection resolves to [b] (and the run neither lists the extensions
    nor hands over to the editor integration) the order is: detection
    started, initialization and warnings, detection resolved, UI
    construction. *)
Theorem kitty_detection_order (L : string) (w : World) (n : nat) :
  config_isInteractive w = true →
  stdin_isTTY w = true →
  stdin_isRaw w = false →
  let r := main_dispatch L w n in
  (∀ l1 e l2, events r = l1 ++ e :: l2 → is_startup_load e = true →
              EvDetectAndEnableKittyProtocol ∈ l1)
  ∧ (∀ l1 e l2, events r = l1 ++ e :: l2 → is_ui_construction e = true →
                ∃ b, kitty_detection w = Some b
                     ∧ EvKittyDetectionResolved b ∈ l1)
  ∧ (kitty_detection w = None →
     ∀ e, e ∈ events r → is_ui_construction e = false)
  ∧ (config_getListExtensions w = false →
     config_getExperimentalZedIntegration w = false →
     match kitty_detection w with
     | None => outcome r = Pending
     | Some b =>
         outcome r = Ret tt
         ∧ ∃ l1 l2 l3,
             events r = l1 ++ EvDetectAndEnableKittyProtocol :: l2
                        ++ EvKittyDetectionResolved b :: EvGetCliVersion :: l3
             ∧ EvInitializeApp ∈ l2 ∧ EvGetStartupWarnings ∈ l2
             ∧ EvGetUserStartupWarnings ∈ l2 ∧ EvRender ∈ l3
     end).
Proof.
  intros Hint Htty Hraw r.
  destruct (main_dispatch_interactive_order L w n Hint Htty Hraw)
    as [Hstart Hresolved]. fold r in Hstart, Hresolved.
  assert (Hui : ∀ l1 e l2, events r = l1 ++ e :: l2 →
                  is_ui_construction e = true →
                  ∃ b, kitty_detection w = Some b
                       ∧ EvKittyDetectionResolved b ∈ l1).
  { intros l1 e l2 Heq He.
    destruct (always_after_sound _ _ _ Hresolved l1 e l2 Heq He)
      as (e' & Hin & Hd).
    destruct e'; try discriminate.
    destruct (kitty_detection w) as [b|]; [|discriminate].
    cbn in Hd. apply Bool.eqb_prop in Hd. subst. eauto. }
  split; [|split; [exact Hui|split]].
  - intros l1 e l2 Heq He.
    destruct (always_after_sound _ _ _ Hstart l1 e l2 Heq He)
      as (e' & Hin & Hd).
    destruct e'; try discriminate. exact Hin.
  - intros Hnone e He.
    destruct (is_ui_construction e) eqn:Hx; [|reflexivity].
    apply list_elem_of_split in He as (l1 & l2 & Heq).
    destruct (Hui l1 e l2 Heq Hx) as (b & Hb & _). congruence.
  - intros Hlist Hzed. subst r.
    unfold main_dispatch, startInteractiveUI, await_kitty, when.
    rewrite Hlist, Hint, Htty, Hraw, Hzed. cbn [negb andb].
    destruct (kitty_detection w) as [b|].
    + split; [repeat destruct_cond; reflexivity|].
      exists [EvLoadExtensions; EvLoadCliConfig (extensions w);
              EvSetRawMode true; EvOnSignal "SIGTERM"; EvOnSignal "SIGINT"],
        ([EvSetMaxSizedBoxDebugging (argv_isDebugMode w); EvInitializeApp]
         ++ (if bool_decide (auth_selectedType w = Some L)
                && config_isBrowserLaunchSuppressed w
             then [EvGetOauthClient L] else [])
         ++ [EvGetStartupWarnings; EvGetUserStartupWarnings]),
        ((if JS.truthy_opt_bool (ui_hideWindowTitle w) then []
          else [EvSetWindowTitle; EvOnSignal "exit"])
         ++ [EvRender; EvCheckForUpdates;
             EvRegisterCleanup "instance.unmount"]).
      repeat destruct_cond; (split; [reflexivity|]); cbn [app];
        repeat split; solve_elem.
    + repeat destruct_cond; reflexivity.
Qed.

(** The interactive sample run returns to the event loop with the UI
    rendered. *)
Lemma kitty_detection_order_sample :
  outcome (main_dispatch "oauth-personal" world_interactive 0) = Ret tt
  ∧ EvRender ∈ events (main_dispatch "oauth-personal" world_interactive 0).
Proof.
  assert (H := kitty_detection_order "oauth-personal" world_interactive 0).
  cbv zeta in H. destruct H as (_ & _ & _ & Hrun); try reflexivity.
  destruct Hrun as (Hret & l1 & l2 & l3 & Heq & _ & _ & _ & Hrender);
    try reflexivity.
  split; [exact Hret|]. rewrite Heq. apply elem_of_app. right.
  apply list_elem_of_further, elem_of_app. right.
  apply list_elem_of_further, list_elem_of_further, Hrender.
Defined.

(* ================================================================== *)
(** ** More on the stdin injector *)
(* ================================================================== *)

Lemma string_append_empty s : s +:+ EmptyString = s.
Proof.
  induction s as [|a s IH]; [reflexivity|].
  change (String a (s +:+ EmptyString) = String a s). rewrite IH. reflexivity.
Qed.

(** After an injection some prompt flag is followed by a value that
    begins with the captured text. *)
Lemma injectStdinIntoArgs_flag_value args s :
  s ≠ EmptyString →
  ∃ j flag v,
    injectStdinIntoArgs args (Some s) !! j = Some flag
    ∧ is_prompt_flag flag
    ∧ injectStdinIntoArgs args (Some s) !! S j = Some v
    ∧ starts_with s v.
Proof.
  intros Hs.
  destruct (list_find is_prompt_flag args) as [[i flag]|] eqn:Hfind.
  - assert (Hi : first_prompt_flag args i)
      by (apply first_prompt_flag_find; eauto).
    apply list_find_Some in Hfind as (Hflag & Hp & _).
    destruct (args !! S i) as [v|] eqn:Hv.
    + rewrite (injectStdinIntoArgs_replace args s i v Hs Hi Hv).
      exists i, flag, (s +:+ JS.nlnl +:+ v).
      split; [rewrite list_lookup_insert_ne by lia; exact Hflag|].
      split; [exact Hp|].
      split; [apply list_lookup_insert_eq, (lookup_lt_Some _ _ _ Hv)|].
      exists (JS.nlnl +:+ v). reflexivity.
    + rewrite (injectStdinIntoArgs_append args s Hs).
      * exists (length args), "--prompt", s.
        split; [rewrite lookup_app_r, Nat.sub_diag by lia; reflexivity|].
        split; [left; reflexivity|].
        split; [rewrite lookup_app_r by lia;
                replace (S (length args) - length args)%nat with 1%nat by lia;
                reflexivity|].
        exists EmptyString. symmetry. apply string_append_empty.
      * intros i' Hi'.
        assert (i' = i) as ->; [|exact Hv].
        destruct Hi as [(f1 & Hf1 & Hp1) Hmin], Hi' as [(f2 & Hf2 & Hp2) Hmin'].
        destruct (Nat.lt_trichotomy i' i) as [Hlt|[Heq|Hgt]]; [|exact Heq|].
        -- destruct (Hmin i' f2 Hf2 Hlt Hp2).
        -- destruct (Hmin' i f1 Hf1 Hgt Hp1).
  - apply list_find_None in Hfind.
    rewrite (injectStdinIntoArgs_append args s Hs).
    + exists (length args), "--prompt", s.
      split; [rewrite lookup_app_r, Nat.sub_diag by lia; reflexivity|].
      split; [left; reflexivity|].
      split; [rewrite lookup_app_r by lia;
              replace (S (length args) - length args)%nat with 1%nat by lia;
              reflexivity|].
      exists EmptyString. symmetry. apply string_append_empty.
    + intros i [(flag & Hflag & Hp) _]. exfalso.
      rewrite Forall_forall in Hfind. apply (Hfind flag); [|exact Hp].
      apply list_elem_of_lookup. eauto.
Qed.

(** X1. Whatever the argument vector, a non-empty captured text ends up
    in the result as the beginning of the element that follows a prompt
    flag: either merged into an existing value or as the new trailing
    pair. *)
Theorem injectStdinIntoArgs_delivers (args : list string) (s : string) :
  s ≠ EmptyString →
  ∃ j flag v,
    injectStdinIntoArgs args (Some s) !! j = Some flag
    ∧ is_prompt_flag flag
    ∧ injectStdinIntoArgs args (Some s) !! S j = Some v
    ∧ starts_with s v
    ∧ (length args ≤ length (injectStdinIntoArgs args (Some s))
       ≤ length args + 2)%nat.
Proof.
  intros Hs.
  destruct (injectStdinIntoArgs_flag_value args s Hs)
    as (j & flag & v & Hj & Hp & Hv & Hstart).
  exists j, flag, v. repeat (split; [assumption|]).
  unfold injectStdinIntoArgs, JS.push2.
  rewrite (truthy_string_true s Hs).
  destruct_cond; rewrite ?length_insert, ?length_app; cbn [length]; lia.
Qed.

Lemma injectStdinIntoArgs_delivers_sample :
  ∃ j flag v,
    injectStdinIntoArgs ["node"; "cli.js"] (Some "ctx") !! j = Some flag
    ∧ is_prompt_flag flag
    ∧ injectStdinIntoArgs ["node"; "cli.js"] (Some "ctx") !! S j = Some v
    ∧ starts_with "ctx" v
    ∧ (2 ≤ length (injectStdinIntoArgs ["node"; "cli.js"] (Some "ctx"))
       ≤ 2 + 2)%nat.
Proof.
  apply (injectStdinIntoArgs_delivers ["node"; "cli.js"] "ctx"). discriminate.
Defined.

(** X2. Injecting twice never appends a second pair: the second
    injection finds the prompt flag the first one left or created and
    only rewrites the value after the first prompt flag, so the length
    does not change. *)
Theorem injectStdinIntoArgs_twice (args : list string) (s t : string) :
  s ≠ EmptyString → t ≠ EmptyString →
  let once := injectStdinIntoArgs args (Some s) in
  ∃ i v, first_prompt_flag once i ∧ once !! S i = Some v
         ∧ injectStdinIntoArgs once (Some t)
           = <[S i := t +:+ JS.nlnl +:+ v]> once
         ∧ length (injectStdinIntoArgs once (Some t)) = length once.
Proof.
  intros Hs Ht once.
  destruct (injectStdinIntoArgs_flag_value args s Hs)
    as (j & flag & v0 & Hj & Hp & Hv0 & _). fold once in Hj, Hv0.
  destruct (prompt_flag_with_value_first once j flag Hj Hp (mk_is_Some _ _ Hv0))
    as (i & Hi & [v Hv]).
  exists i, v. split; [exact Hi|]. split; [exact Hv|].
  rewrite (injectStdinIntoArgs_replace once t i v Ht Hi Hv).
  split; [reflexivity|apply length_insert].
Qed.

Lemma injectStdinIntoArgs_twice_sample :
  length (injectStdinIntoArgs (injectStdinIntoArgs ["other"] (Some "a"))
            (Some "b")) = 3%nat.
Proof.
  destruct (injectStdinIntoArgs_twice ["other"] "a" "b")
    as (i & v & _ & _ & _ & Hlen); [discriminate|discriminate|].
  rewrite Hlen. reflexivity.
Defined.

(** X3. A prompt flag that is the last element stays without a value of
    its own: when the first prompt flag is the last argument the
    injector appends the pair, and in the result that flag is still the
    first prompt flag and is followed by the literal [--prompt], not
    by the captured text. *)
Theorem injectStdinIntoArgs_dangling_flag (args : list string) (s : string)
    (i : nat) :
  s ≠ EmptyString →
  first_prompt_flag args i →
  S i = length args →
  injectStdinIntoArgs args (Some s) = args ++ ["--prompt"; s]
  ∧ first_prompt_flag (injectStdinIntoArgs args (Some s)) i
  ∧ injectStdinIntoArgs args (Some s) !! S i = Some "--prompt".
Proof.
  intros Hs Hi Hlast.
  assert (Happ : injectStdinIntoArgs args (Some s) = args ++ ["--prompt"; s]).
  { apply injectStdinIntoArgs_append; [exact Hs|].
    intros i' Hi'. assert (i' = i) as ->.
    { destruct Hi as [(f1 & Hf1 & Hp1) Hmin], Hi' as [(f2 & Hf2 & Hp2) Hmin'].
      destruct (Nat.lt_trichotomy i' i) as [Hlt|[Heq|Hgt]]; [|exact Heq|].
      - destruct (Hmin i' f2 Hf2 Hlt Hp2).
      - destruct (Hmin' i f1 Hf1 Hgt Hp1). }
    apply lookup_ge_None. lia. }
  split; [exact Happ|]. rewrite Happ.
  destruct Hi as [(flag & Hflag & Hp) Hmin]. split; [split|].
  - exists flag. split; [apply lookup_app_l_Some, Hflag|exact Hp].
  - intros j arg Hj Hlt. apply (Hmin j arg); [|exact Hlt].
    rewrite lookup_app_l in Hj by lia. exact Hj.
  - rewrite lookup_app_r by lia.
    replace (S i - length args)%nat with 0%nat by lia. reflexivity.
Qed.

Lemma injectStdinIntoArgs_dangling_flag_sample :
  injectStdinIntoArgs ["cli.js"; "-p"] (Some "ctx")
  = ["cli.js"; "-p"; "--prompt"; "ctx"].
Proof.
  apply (injectStdinIntoArgs_dangling_flag ["cli.js"; "-p"] "ctx" 1).
  - discriminate.
  - split.
    + exists "-p". split; [reflexivity|right; reflexivity].
    + intros [|[|j]] arg Hj Hlt; [|lia|lia].
      injection Hj as <-. intros [H|H]; discriminate.
  - reflexivity.
Defined.

(* ================================================================== *)
(** ** More on the memory calculator *)
(* ================================================================== *)

(** X4. Without the no-relaunch marker the calculator asks for a larger
    heap exactly when [os.totalmem()] is at least 2 MiB times the
    current limit in whole megabytes plus one: the comparison of the
    two floors is a threshold on the byte counts. *)
Theorem getNodeMemoryArgs_threshold (w : World) (dbg : bool) (n : nat) :
  JS.truthy_opt_string (env_GEMINI_CLI_NO_RELAUNCH w) = false →
  (outcome (getNodeMemoryArgs w dbg n) ≠ Ret []
   ↔ (2097152 * (heap_size_limit w / 1048576 + 1) ≤ os_totalmem w)%Z)
  ∧ (outcome (getNodeMemoryArgs w dbg n) = Ret []
     ↔ (os_totalmem w < 2097152 * (heap_size_limit w / 1048576 + 1))%Z).
Proof.
  intros Hno.
  destruct (getNodeMemoryArgs_run w dbg n) as (evs & -> & _ & _).
  cbn [outcome]. rewrite Hno.
  rewrite targetMaxOldSpaceSizeInMB_div, currentMaxOldSpaceSizeMb_div.
  set (c := (heap_size_limit w / 1048576)%Z).
  destruct (os_totalmem w / 2097152 >? c)%Z eqn:Hgt.
  - apply Z.gtb_lt in Hgt.
    assert (2097152 * (c + 1) ≤ os_totalmem w)%Z.
    { pose proof (Z.mul_div_le (os_totalmem w) 2097152 eq_refl). nia. }
    split; split; intros; (discriminate || lia || congruence).
  - rewrite Z.gtb_ltb in Hgt. apply Z.ltb_ge in Hgt.
    assert (os_totalmem w < 2097152 * (c + 1))%Z.
    { apply Z.nle_gt. intros Hle.
      pose proof (Z.div_le_lower_bound (os_totalmem w) 2097152 (c + 1)
                    eq_refl Hle). lia. }
    split; split; intros; (reflexivity || lia || congruence).
Qed.

(** The sample machine is above the threshold. *)
Lemma getNodeMemoryArgs_threshold_sample :
  outcome (getNodeMemoryArgs world_plain false 0) ≠ Ret [].
Proof.
  apply (getNodeMemoryArgs_threshold world_plain false 0);
    [reflexivity|vm_compute; discriminate].
Defined.

(** X5. The debug flag only adds log lines: the list returned is the
    same with and without it, and without it the calculator does
    nothing but read the two memory figures. A returned flag asks for
    more than the current limit and for at most half of the total
    memory. *)
Theorem getNodeMemoryArgs_bounds (w : World) (dbg : bool) (n : nat) :
  outcome (getNodeMemoryArgs w dbg n) = outcome (getNodeMemoryArgs w false n)
  ∧ events (getNodeMemoryArgs w false n) = [EvOsTotalmem; EvGetHeapStatistics]
  ∧ (outcome (getNodeMemoryArgs w dbg n) = Ret []
     ∨ ∃ mb, outcome (getNodeMemoryArgs w dbg n)
             = Ret [max_old_space_size_flag mb]
             ∧ (heap_size_limit w / 1048576 < mb)%Z
             ∧ (1048576 * mb + 1048576 * mb ≤ os_totalmem w)%Z).
Proof.
  destruct (getNodeMemoryArgs_run w dbg n) as (evs & Hr & _ & _).
  destruct (getNodeMemoryArgs_run w false n) as (evs' & Hr' & _ & _).
  split; [rewrite Hr, Hr'; reflexivity|].
  split.
  - unfold getNodeMemoryArgs, when. repeat destruct_cond; reflexivity.
  - rewrite Hr. cbn [outcome].
    destruct (JS.truthy_opt_string (env_GEMINI_CLI_NO_RELAUNCH w));
      [left; reflexivity|].
    destruct (targetMaxOldSpaceSizeInMB w >? currentMaxOldSpaceSizeMb w)%Z
      eqn:Hgt; [|left; reflexivity].
    right. exists (targetMaxOldSpaceSizeInMB w). split; [reflexivity|].
    apply Z.gtb_lt in Hgt.
    rewrite targetMaxOldSpaceSizeInMB_div, currentMaxOldSpaceSizeMb_div in *.
    split; [exact Hgt|].
    pose proof (Z.mul_div_le (os_totalmem w) 2097152 eq_refl). lia.
Qed.

Lemma number_to_string_inj a b :
  JS.number_to_string a = JS.number_to_string b → a = b.
Proof.
  unfold JS.number_to_string. intros H.
  apply DecimalZ.to_int_inj.
  assert (Hnil : ∀ z, Z.to_int z ≠ Decimal.Pos Decimal.Nil
                      ∧ Z.to_int z ≠ Decimal.Neg Decimal.Nil).
  { intros [|p|p]; cbn; split; try discriminate;
      intros Hp; injection Hp as Hp;
      exact (DecimalPos.Unsigned.to_uint_nonnil p Hp). }
  destruct (Hnil a) as [Ha1 Ha2], (Hnil b) as [Hb1 Hb2].
  pose proof (NilZero.isi _ Ha1 Ha2) as Ea.
  pose proof (NilZero.isi _ Hb1 Hb2) as Eb.
  rewrite H in Ea. congruence.
Qed.

Lemma string_append_inj (p a b : string) : p +:+ a = p +:+ b → a = b.
Proof.
  induction p as [|c p IH]; [trivial|].
  intros H. change (String c (p +:+ a) = String c (p +:+ b)) in H.
  injection H as H. apply IH, H.
Qed.

(** X6. The flag text determines the heap size it asks for: two
    different sizes never give the same flag. *)
Theorem max_old_space_size_flag_inj (a b : Z) :
  max_old_space_size_flag a = max_old_space_size_flag b → a = b.
Proof.
  unfold max_old_space_size_flag. intros H.
  apply number_to_string_inj, (string_append_inj _ _ _ H).
Qed.

Lemma max_old_space_size_flag_inj_sample :
  (8192 = 4096 * 2)%Z.
Proof.
  apply (max_old_space_size_flag_inj 8192 (4096 * 2)). reflexivity.
Defined.

(* ================================================================== *)
(** ** More on the DNS-order validator *)
(* ================================================================== *)

(** X7. The validator accepts its own answers: validating the string
    form of any result gives the same result without a warning, and a
    warning is printed exactly for a present value that is neither
    ["ipv4first"] nor ["verbatim"]. *)
Theorem validateDnsResolutionOrder_idempotent (order : option string)
    (n : nat) :
  ∃ o evs,
    validateDnsResolutionOrder order n = mkRun (Ret o) evs n
    ∧ validateDnsResolutionOrder (Some (DnsResolutionOrder_to_string o)) n
      = mkRun (Ret o) [] n
    ∧ (evs ≠ [] ↔ ∃ s, order = Some s ∧ s ≠ "ipv4first" ∧ s ≠ "verbatim").
Proof.
  destruct order as [s|]; unfold validateDnsResolutionOrder at 1.
  - destruct (String.eqb s "ipv4first") eqn:H1;
      [|destruct (String.eqb s "verbatim") eqn:H2].
    + apply String.eqb_eq in H1 as ->.
      exists ipv4first, []. repeat split; try done.
      intros (s & Hs & Hne & _). congruence.
    + apply String.eqb_eq in H2 as ->.
      exists verbatim, []. repeat split; try done.
      intros (s & Hs & _ & Hne). congruence.
    + apply String.eqb_neq in H1, H2.
      exists ipv4first, [EvConsoleWarn (dns_warning s)].
      repeat split; try done. intros _. eauto.
  - exists ipv4first, []. repeat split; try done.
    intros (s & Hs & _). discriminate.
Qed.

(* ================================================================== *)
(** ** The unhandled-rejection listener *)
(* ================================================================== *)

Lemma unhandled_rejections_after_first reasons :
  unhandled_rejections true reasons
  = map (λ reason, LogError (rejection_message reason)) reasons.
Proof.
  induction reasons as [|reason reasons IH]; [reflexivity|].
  cbn. rewrite IH. reflexivity.
Qed.

(** X8. Every unhandled rejection is logged, in order, with its own
    message, and the debug console is opened once: right after the
    first rejection is logged and never again. Without a rejection
    nothing is emitted. *)
Theorem setupUnhandledRejectionHandler_once (reason : Rejection)
    (reasons : list Rejection) :
  setupUnhandledRejectionHandler [] = []
  ∧ setupUnhandledRejectionHandler (reason :: reasons)
    = LogError (rejection_message reason) :: OpenDebugConsole
      :: map (λ r, LogError (rejection_message r)) reasons
  ∧ length (setupUnhandledRejectionHandler (reason :: reasons))
    = S (length (reason :: reasons)).
Proof.
  split; [reflexivity|].
  assert (H : setupUnhandledRejectionHandler (reason :: reasons)
              = LogError (rejection_message reason) :: OpenDebugConsole
                :: map (λ r, LogError (rejection_message r)) reasons).
  { unfold setupUnhandledRejectionHandler. cbn.
    rewrite unhandled_rejections_after_first. reflexivity. }
  split; [exact H|]. rewrite H. cbn. rewrite length_map. reflexivity.
Qed.

(* ================================================================== *)
(** ** The dispatch block as a whole *)
(* ================================================================== *)

(** The four ways through the dispatch block. *)
Ltac dispatch_cases L w n :=
  let Hlist := fresh "Hlist" in
  let Hzed := fresh "Hzed" in
  let Hint := fresh "Hint" in
  destruct (config_getListExtensions w) eqn:Hlist;
  [ rewrite (main_dispatch_listExtensions L w n Hlist)
  | destruct (config_getExperimentalZedIntegration w) eqn:Hzed;
    [ unfold main_dispatch, when; rewrite Hlist, Hzed
    | destruct (config_isInteractive w) eqn:Hint;
      [ unfold main_dispatch, startInteractiveUI, await_kitty, when;
        rewrite Hlist, Hzed, Hint
      | rewrite (main_dispatch_nonInteractive L w n Hlist Hint Hzed),
          main_nonInteractive_run ] ] ].

(** All events of an explicit list are of one class. *)
Ltac solve_Forall :=
  repeat (apply Forall_cons; split; [reflexivity|]); apply Forall_nil_2.

(** The dispatch block spawns nothing and stays within its own
    actions. *)
Lemma main_dispatch_emits L w n :
  spawned (main_dispatch L w n) = n
  ∧ Forall (λ e, dispatch_may_emit e = true) (events (main_dispatch L w n)).
Proof.
  dispatch_cases L w n.
  - split; [reflexivity|]. cbn [events]. rewrite !Forall_app.
    split; [solve_Forall|]. split; [|solve_Forall].
    apply Forall_map, Forall_forall. reflexivity.
  - repeat destruct_cond; run_proc; (split; [reflexivity|solve_Forall]).
  - cbn [negb andb]. destruct (kitty_detection w) as [[|]|];
      repeat destruct_cond; run_proc; (split; [reflexivity|solve_Forall]).
  - cbv zeta. unfold prepend.
    destruct (stdin_isTTY w); repeat destruct_cond;
      cbn [outcome events spawned app]; (split; [reflexivity|solve_Forall]).
Qed.

Lemma dispatch_not_relaunch_logic e :
  dispatch_may_emit e = true → is_relaunch_logic e = false.
Proof. destruct e; (discriminate || reflexivity). Qed.

Lemma configure_not_relaunch_logic e :
  is_configure e = true → is_relaunch_logic e = false.
Proof. destruct e; (discriminate || reflexivity). Qed.

(** With the SANDBOX marker, past the guard, [main] configures and
    dispatches; the relaunch helpers are not consulted. *)
Lemma main_marker_run L relaunchOnExitCode relaunchAppInChildProcess w n :
  JS.truthy_opt_string (env_SANDBOX w) = true →
  guard_fires w = false →
  main L relaunchOnExitCode relaunchAppInChildProcess w n
  = prepend (arguments_events ++ events (main_configure w n))
      (main_dispatch L w n).
Proof.
  intros Hs Hg. unfold main.
  destruct (main_bootstrap_run relaunchOnExitCode relaunchAppInChildProcess
              w n Hg) as (C & _ & Hboot).
  destruct (main_configure_run w n) as (C' & Hc & _).
  assert (HC : main_bootstrap relaunchOnExitCode relaunchAppInChildProcess w n
               = mkRun (Ret tt)
                   (arguments_events ++ events (main_configure w n)) n).
  { unfold main_bootstrap.
    pose proof (main_arguments_run w n) as Ha. rewrite Hg in Ha.
    rewrite (bind_returns _ _ n _ _ _ Ha), (bind_returns _ _ n _ _ _ Hc).
    rewrite Hs, Hc. cbn [negb]. unfold prepend, ret.
    cbn [outcome events spawned]. rewrite app_nil_r. reflexivity. }
  rewrite (bind_returns _ _ n _ _ _ HC). reflexivity.
Qed.

(** X9. With the SANDBOX marker set, [main] does not depend on the
    relaunch helpers at all: it runs the same with any two pairs of
    helpers, spawns no child, and performs none of the actions of the
    relaunch logic (memory probe, sandbox configuration, pre-sandbox
    authentication, spawning). *)
Theorem main_inside_sandbox (L : string)
    (relaunchOnExitCode relaunchOnExitCode' : Proc Z → Proc unit)
    (relaunchAppInChildProcess relaunchAppInChildProcess'
       : list string → list string → Proc unit)
    (w : World) (n : nat) :
  JS.truthy_opt_string (env_SANDBOX w) = true →
  main L relaunchOnExitCode relaunchAppInChildProcess w n
  = main L relaunchOnExitCode' relaunchAppInChildProcess' w n
  ∧ spawned (main L relaunchOnExitCode relaunchAppInChildProcess w n) = n
  ∧ Forall (λ e, is_relaunch_logic e = false)
      (events (main L relaunchOnExitCode relaunchAppInChildProcess w n)).
Proof.
  intros Hs. destruct (guard_fires w) eqn:Hg.
  - assert (Hrun : ∀ rl rapp,
              main L rl rapp w n
              = mkRun (Exit 1)
                  (arguments_events
                   ++ [EvConsoleError [prompt_interactive_error];
                       EvProcessExit 1]) n).
    { intros rl rapp. unfold main.
      rewrite (bind_exits _ _ n _ _ _ (main_bootstrap_guard rl rapp w n Hg)).
      reflexivity. }
    rewrite !Hrun. split; [reflexivity|]. split; [reflexivity|].
    cbn [events]. solve_Forall.
  - rewrite !(main_marker_run L _ _ w n Hs Hg).
    split; [reflexivity|].
    destruct (main_dispatch_emits L w n) as [Hn Hev].
    split; [exact Hn|]. unfold prepend. cbn [events]. rewrite !Forall_app.
    split; [split; [solve_Forall|]|].
    + destruct (main_configure_run w n) as (C & -> & HC). cbn [events].
      eapply Forall_impl; [exact HC|apply configure_not_relaunch_logic].
    + eapply Forall_impl; [exact Hev|apply dispatch_not_relaunch_logic].
Qed.

Lemma main_inside_sandbox_sample :
  spawned (sample_run world_batch) = 0%nat
  ∧ sample_run world_batch
    = main "oauth-personal" (λ _, ret tt) (λ _ _, ret tt) world_batch 0.
Proof.
  destruct (main_inside_sandbox "oauth-personal"
              (Relaunch.relaunchOnExitCode 42 10) (λ _, ret tt)
              (Relaunch.relaunchAppInChildProcess 42 world_batch 10)
              (λ _ _, ret tt) world_batch 0) as (Heq & Hn & _);
    [reflexivity|].
  split; [exact Hn|exact Heq].
Defined.

Lemma occurrences_none p l :
  Forall (λ e, p e = false) l → occurrences p l = 0%nat.
Proof.
  induction 1 as [|e l He _ IH]; [reflexivity|]. cbn. rewrite He, IH.
  reflexivity.
Qed.

Lemma Forall_class_not_elem (p : Event → bool) l e :
  Forall (λ e, p e = false) l → p e = true → e ∉ l.
Proof.
  intros Hall He Hin. rewrite Forall_forall in Hall.
  specialize (Hall e Hin). congruence.
Qed.

(** While the extensions are listed nothing of class [p] happens, when
    loading, printing and exiting are not of that class. *)
Lemma listExtensions_none (p : Event → bool) L w n :
  config_getListExtensions w = true →
  p EvLoadExtensions = false → p (EvLoadCliConfig (extensions w)) = false →
  (∀ a, p (EvConsoleLog a) = false) → (∀ c, p (EvProcessExit c) = false) →
  Forall (λ e, p e = false) (events (main_dispatch L w n)).
Proof.
  intros Hlist H1 H2 H3 H4.
  rewrite (main_dispatch_listExtensions L w n Hlist). cbn [events].
  apply listExtensions_quiet; assumption.
Qed.

(** X10. Up to the one-shot pipeline the dispatch block decides in a
    fixed order: listing the extensions wins and exits with 0;
    otherwise the editor integration takes over and [main] returns;
    otherwise an interactive run returns to the event loop once the UI
    is up, or stays pending when a started keyboard detection never
    resolves; otherwise a one-shot run without input exits with 1. In
    all these runs no child is spawned. Nothing is said here about a
    one-shot run with input, whose end depends on the pipeline. *)
Theorem main_dispatch_outcome (L : string) (w : World) (n : nat) :
  config_getListExtensions w = true
  ∨ config_getExperimentalZedIntegration w = true
  ∨ config_isInteractive w = true
  ∨ merged_input w = EmptyString →
  outcome (main_dispatch L w n)
  = (if config_getListExtensions w then Exit 0
     else if config_getExperimentalZedIntegration w then Ret tt
     else if config_isInteractive w then
       (if raw_mode_due w
        then match kitty_detection w with
             | Some _ => Ret tt
             | None => Pending
             end
        else Ret tt)
     else Exit 1)
  ∧ spawned (main_dispatch L w n) = n.
Proof.
  intros Hrow. split; [|apply main_dispatch_emits].
  unfold raw_mode_due. dispatch_cases L w n.
  - reflexivity.
  - repeat destruct_cond; reflexivity.
  - cbn [negb andb]. destruct (kitty_detection w) as [[|]|];
      repeat destruct_cond; reflexivity.
  - destruct Hrow as [H|[H|[H|Hempty]]]; try discriminate.
    apply truthy_string_false in Hempty. rewrite Hempty.
    reflexivity.
Qed.

(** X11. Listing the extensions takes precedence over every other mode:
    the process loads extensions and configuration, prints the header
    and one line per extension in their order, and exits with status 0;
    the terminal mode is not touched and neither initialization,
    authentication, standard input nor cleanup is reached. *)
Theorem listExtensions_prints_and_exits (L : string) (w : World) (n : nat) :
  config_getListExtensions w = true →
  main_dispatch L w n
  = mkRun (Exit 0)
      ([EvLoadExtensions; EvLoadCliConfig (extensions w)]
       ++ map (λ line, EvConsoleLog [line])
            ("Installed extensions:" :: map (String.append "- ") (extensions w))
       ++ [EvProcessExit 0]) n
  ∧ occurrences (λ e, match e with EvConsoleLog _ => true | _ => false end)
      (events (main_dispatch L w n)) = S (length (extensions w)).
Proof.
  intros Hlist. rewrite (main_dispatch_listExtensions L w n Hlist).
  cbn [events map app]. rewrite map_map. split; [reflexivity|].
  cbn. f_equal. induction (extensions w) as [|name names IH]; [reflexivity|].
  cbn. rewrite IH. reflexivity.
Qed.

Lemma listExtensions_prints_and_exits_sample :
  main_dispatch "oauth-personal" world_list_extensions 0
  = mkRun (Exit 0)
      [EvLoadExtensions; EvLoadCliConfig ["one"; "two"];
       EvConsoleLog ["Installed extensions:"]; EvConsoleLog ["- one"];
       EvConsoleLog ["- two"]; EvProcessExit 0] 0.
Proof.
  apply (listExtensions_prints_and_exits "oauth-personal"
           world_list_extensions 0).
  reflexivity.
Defined.

(** X12. When the editor integration is enabled the run is handed to it
    right after initialization (and the login pre-fetch, when due) and
    [main] returns: no startup warning is collected, no UI is built,
    standard input is not read and the process does not exit. A
    keyboard detection started for an interactive terminal is left
    unawaited, with the terminal in raw mode. *)
Theorem zed_integration_takes_over (L : string) (w : World) (n : nat) :
  config_getListExtensions w = false →
  config_getExperimentalZedIntegration w = true →
  outcome (main_dispatch L w n) = Ret tt
  ∧ (∃ before, events (main_dispatch L w n) = before ++ [EvRunZedIntegration]
               ∧ EvInitializeApp ∈ before)
  ∧ Forall (λ e, is_ui_construction e = false ∧ is_read_stdin e = false
                 ∧ is_process_exit e = false ∧ is_pipeline e = false
                 ∧ is_kitty_result (kitty_detection w) e = false
                 ∧ e ≠ EvGetStartupWarnings ∧ e ≠ EvGetUserStartupWarnings)
      (events (main_dispatch L w n))
  ∧ (raw_mode_due w = true →
     EvSetRawMode true ∈ events (main_dispatch L w n)
     ∧ EvDetectAndEnableKittyProtocol ∈ events (main_dispatch L w n)).
Proof.
  intros Hlist Hzed. unfold raw_mode_due, main_dispatch, when.
  rewrite Hlist, Hzed.
  repeat destruct_cond; run_proc;
    (split; [reflexivity|]);
    (split; [match goal with
             | |- ∃ before, ?l = _ ∧ _ =>
                 exists (removelast l); cbn [removelast];
                 split; [reflexivity|solve_elem]
             end|]);
    (split; [|try discriminate; intros _; split; solve_elem]);
    repeat (apply Forall_cons; split;
            [destruct (kitty_detection w); repeat split; discriminate|]);
    apply Forall_nil_2.
Qed.

Lemma zed_integration_takes_over_sample :
  outcome (main_dispatch "oauth-personal" world_zed 0) = Ret tt
  ∧ EvDetectAndEnableKittyProtocol
    ∈ events (main_dispatch "oauth-personal" world_zed 0).
Proof.
  destruct (zed_integration_takes_over "oauth-personal" world_zed 0)
    as (Ho & _ & _ & Hraw); [reflexivity|reflexivity|].
  split; [exact Ho|]. apply Hraw. reflexivity.
Defined.

(** X13. The dispatch block reads standard input exactly in a one-shot
    run whose standard input is not a terminal (not when the extensions
    are listed, not under the editor integration, not in an interactive
    run), and it never reads it twice. *)
Theorem main_dispatch_reads_stdin (L : string) (w : World) (n : nat) :
  (EvReadStdin ∈ events (main_dispatch L w n)
   ↔ config_getListExtensions w = false
     ∧ config_getExperimentalZedIntegration w = false
     ∧ config_isInteractive w = false
     ∧ stdin_isTTY w = false)
  ∧ (occurrences is_read_stdin (events (main_dispatch L w n)) ≤ 1)%nat.
Proof.
  destruct (config_getListExtensions w) eqn:Hlist.
  - pose proof (listExtensions_none is_read_stdin L w n Hlist eq_refl eq_refl
                  (λ _, eq_refl) (λ _, eq_refl)) as Hnone.
    split; [|rewrite (occurrences_none _ _ Hnone); lia].
    split; [|intros (H & _); discriminate].
    intros Hin.
    destruct (Forall_class_not_elem _ _ EvReadStdin Hnone eq_refl Hin).
  - destruct (config_getExperimentalZedIntegration w) eqn:Hzed;
      [|destruct (config_isInteractive w) eqn:Hint].
    + unfold main_dispatch, when. rewrite Hlist, Hzed.
      repeat destruct_cond; run_proc;
        (split; [split; solve_elem|cbn; lia]).
    + unfold main_dispatch, startInteractiveUI, await_kitty, when.
      rewrite Hlist, Hzed, Hint. cbn [negb andb].
      destruct (kitty_detection w) as [[|]|];
        repeat destruct_cond; run_proc;
        (split; [split; solve_elem|cbn; lia]).
    + rewrite (main_dispatch_nonInteractive L w n Hlist Hint Hzed),
        main_nonInteractive_run. cbv zeta. unfold prepend.
      destruct (stdin_isTTY w); repeat destruct_cond;
        cbn [outcome events spawned app];
        (split; [split; solve_elem|cbn; lia]).
Qed.

(** X14. The terminal is put into raw mode, and the keyboard detection
    is started, exactly when the run is interactive, standard input is
    a terminal and it was not in raw mode already (and the extensions
    are not being listed); [main] switches raw mode on at most once. *)
Theorem raw_mode_only_when_due (L : string) (w : World) (n : nat) :
  (EvSetRawMode true ∈ events (main_dispatch L w n)
   ↔ config_getListExtensions w = false ∧ raw_mode_due w = true)
  ∧ (EvDetectAndEnableKittyProtocol ∈ events (main_dispatch L w n)
     ↔ config_getListExtensions w = false ∧ raw_mode_due w = true)
  ∧ (occurrences is_raw_mode_on (events (main_dispatch L w n)) ≤ 1)%nat.
Proof.
  unfold raw_mode_due.
  destruct (config_getListExtensions w) eqn:Hlist.
  - pose proof (listExtensions_none
                  (λ e, (is_set_raw_mode e || is_kitty_start e)) L w n Hlist
                  eq_refl eq_refl (λ _, eq_refl) (λ _, eq_refl)) as Hnone.
    assert (Hno : ∀ e, (is_set_raw_mode e || is_kitty_start e) = true →
                       e ∉ events (main_dispatch L w n))
      by (intros e; apply (Forall_class_not_elem _ _ e Hnone)).
    split; [split; [intros Hin; destruct (Hno (EvSetRawMode true) eq_refl Hin)
                   |intros (H & _); discriminate]|].
    split; [split; [intros Hin;
                    destruct (Hno EvDetectAndEnableKittyProtocol eq_refl Hin)
                   |intros (H & _); discriminate]|].
    rewrite occurrences_none; [lia|].
    eapply Forall_impl; [exact Hnone|].
    intros e He. apply orb_false_iff in He. destruct He as [He _].
    destruct e; try reflexivity. discriminate He.
  - destruct (config_getExperimentalZedIntegration w) eqn:Hzed;
      [|destruct (config_isInteractive w) eqn:Hint].
    + unfold main_dispatch, when. rewrite Hlist, Hzed.
      repeat destruct_cond; run_proc;
        (split; [solve_elem|]); (split; [solve_elem|cbn; lia]).
    + unfold main_dispatch, startInteractiveUI, await_kitty, when.
      rewrite Hlist, Hzed, Hint. cbn [negb andb].
      destruct (kitty_detection w) as [[|]|];
        repeat destruct_cond; run_proc;
        (split; [solve_elem|]); (split; [solve_elem|cbn; lia]).
    + rewrite (main_dispatch_nonInteractive L w n Hlist Hint Hzed),
        main_nonInteractive_run. cbv zeta. unfold prepend.
      destruct (stdin_isTTY w); repeat destruct_cond;
        cbn [outcome events spawned app andb];
        (split; [solve_elem|]); (split; [solve_elem|cbn; lia]).
Qed.

Lemma raw_mode_only_when_due_sample :
  EvSetRawMode true ∈ events (main_dispatch "oauth-personal" world_login 0).
Proof.
  apply (raw_mode_only_when_due "oauth-personal" world_login 0).
  split; reflexivity.
Defined.

Lemma main_dispatch_reads_stdin_sample :
  EvReadStdin ∈ events (main_dispatch "oauth-personal" world_batch 0).
Proof.
  apply (main_dispatch_reads_stdin "oauth-personal" world_batch 0).
  repeat split.
Defined.

Lemma main_dispatch_outcome_sample :
  outcome (main_dispatch "oauth-personal" world_zed 0) = Ret tt.
Proof.
  destruct (main_dispatch_outcome "oauth-personal" world_zed 0) as (H & _).
  - right. left. reflexivity.
  - rewrite H. reflexivity.
Defined.

(** X15. The login pre-fetch runs exactly when the selected method is
    the Google login and browser launch is suppressed, and then it
    comes before every action of the UI construction, before the
    one-shot pipeline and before the editor integration. *)
Theorem oauth_prefetch_before_ui (L : string) (w : World) (n : nat) :
  config_getListExtensions w = false →
  (∀ t, EvGetOauthClient t ∈ events (main_dispatch L w n)
        ↔ t = L ∧ oauth_prefetch_due L w = true)
  ∧ (oauth_prefetch_due L w = true →
     ∀ l1 e l2, events (main_dispatch L w n) = l1 ++ e :: l2 →
       is_ui_construction e = true ∨ is_pipeline e = true
       ∨ e = EvRunZedIntegration →
       EvGetOauthClient L ∈ l1).
Proof.
  intros Hlist.
  set (x := λ e, is_ui_construction e || is_pipeline e
                 || match e with EvRunZedIntegration => true | _ => false end).
  assert (H : (∀ t, EvGetOauthClient t ∈ events (main_dispatch L w n)
                    ↔ t = L ∧ oauth_prefetch_due L w = true)
              ∧ (oauth_prefetch_due L w = true →
                 always_after is_oauth_prefetch x
                   (events (main_dispatch L w n)) = true)).
  { unfold oauth_prefetch_due.
    destruct (config_getExperimentalZedIntegration w) eqn:Hzed;
      [|destruct (config_isInteractive w) eqn:Hint].
    - unfold main_dispatch, when. rewrite Hlist, Hzed.
      repeat destruct_cond; run_proc;
        (split; [intros t; solve_elem|try discriminate; reflexivity]).
    - unfold main_dispatch, startInteractiveUI, await_kitty, when.
      rewrite Hlist, Hzed, Hint. cbn [negb andb].
      destruct (kitty_detection w) as [[|]|];
        repeat destruct_cond; run_proc;
        (split; [intros t; solve_elem|try discriminate; reflexivity]).
    - rewrite (main_dispatch_nonInteractive L w n Hlist Hint Hzed),
        main_nonInteractive_run. cbv zeta. unfold prepend.
      destruct (stdin_isTTY w); repeat destruct_cond;
        cbn [outcome events spawned app];
        (split; [intros t; solve_elem|try discriminate; reflexivity]). }
  destruct H as [Hiff Hafter]. split; [exact Hiff|].
  intros Hdue l1 e l2 Heq He.
  assert (Hx : x e = true).
  { unfold x. destruct He as [He|[He| -> ]]; [rewrite He| |]; try reflexivity.
    rewrite He. apply orb_true_iff. left. apply orb_true_r. }
  destruct (always_after_sound _ _ _ (Hafter Hdue) l1 e l2 Heq Hx)
    as (e' & Hin & Hd).
  destruct e'; try discriminate.
  assert (Hall : EvGetOauthClient authType ∈ events (main_dispatch L w n))
    by (rewrite Heq; apply elem_of_app; left; exact Hin).
  apply Hiff in Hall as [-> _]. exact Hin.
Qed.

Lemma oauth_prefetch_before_ui_sample :
  EvGetOauthClient "oauth-personal"
  ∈ events (main_dispatch "oauth-personal" world_login 0).
Proof.
  apply (oauth_prefetch_before_ui "oauth-personal" world_login 0);
    [reflexivity|]. split; reflexivity.
Defined.

(** X16. Exit cleanup is called only right after the one-shot pipeline
    was invoked: whenever it is called, the run is a non-interactive
    one with a non-empty merged input, the call directly follows the
    invocation of the pipeline on that input, and the prompt logged
    before carries the same input and id. The exits of the listing and
    the exit with status 1 happen without cleanup. Nothing is said
    about whether the pipeline, once reached, lets cleanup happen. *)
Theorem exit_cleanup_only_after_pipeline (L : string) (w : World) (n : nat) :
  (EvRunExitCleanup ∈ events (main_dispatch L w n) →
   config_getListExtensions w = false
   ∧ config_getExperimentalZedIntegration w = false
   ∧ config_isInteractive w = false
   ∧ merged_input w ≠ EmptyString
   ∧ ∃ pre post,
       events (main_dispatch L w n)
       = pre ++ [EvRunNonInteractive (merged_input w) (random_prompt_id w);
                 EvRunExitCleanup] ++ post
       ∧ EvLogUserPrompt (merged_input w) (random_prompt_id w) ∈ pre
       ∧ Forall (λ e, is_pipeline e = false) pre)
  ∧ (config_getListExtensions w = true
     ∨ outcome (main_dispatch L w n) = Exit 1 →
     EvRunExitCleanup ∉ events (main_dispatch L w n)).
Proof.
  assert (Hin_cases : EvRunExitCleanup ∈ events (main_dispatch L w n) →
                      config_getListExtensions w = false
                      ∧ config_getExperimentalZedIntegration w = false
                      ∧ config_isInteractive w = false
                      ∧ JS.truthy_string (merged_input w) = true).
  { destruct (config_getListExtensions w) eqn:Hlist.
    - pose proof (listExtensions_none is_exit_cleanup L w n Hlist
                    eq_refl eq_refl (λ _, eq_refl) (λ _, eq_refl)) as Hnone.
      intros Hin.
      destruct (Forall_class_not_elem _ _ EvRunExitCleanup Hnone eq_refl Hin).
    - destruct (config_getExperimentalZedIntegration w) eqn:Hzed;
        [|destruct (config_isInteractive w) eqn:Hint].
      + unfold main_dispatch, when. rewrite Hlist, Hzed.
        repeat destruct_cond; run_proc; solve_elem.
      + unfold main_dispatch, startInteractiveUI, await_kitty, when.
        rewrite Hlist, Hzed, Hint. cbn [negb andb].
        destruct (kitty_detection w) as [[|]|];
          repeat destruct_cond; run_proc; solve_elem.
      + rewrite (main_dispatch_nonInteractive L w n Hlist Hint Hzed),
          main_nonInteractive_run. cbv zeta. unfold prepend.
        destruct (stdin_isTTY w); repeat destruct_cond;
          cbn [outcome events spawned app]; solve_elem. }
  split.
  - intros Hin. destruct (Hin_cases Hin) as (Hlist & Hzed & Hint & Hinput).
    repeat (split; [assumption|]).
    split; [intros Hempty; apply truthy_string_false in Hempty; congruence|].
    rewrite (main_dispatch_nonInteractive L w n Hlist Hint Hzed),
      main_nonInteractive_run. cbv zeta. rewrite Hinput.
    unfold prepend.
    destruct (stdin_isTTY w); repeat destruct_cond;
      cbn [outcome events spawned app];
      match goal with
      | |- ∃ pre post, ?l = _ ∧ _ =>
          exists (removelast (removelast (removelast l))), [EvProcessExit 0];
          cbn [removelast];
          split; [reflexivity|split; [solve_elem|solve_Forall]]
      end.
  - intros [Hlist|Hexit] Hin;
      destruct (Hin_cases Hin) as (Hl & Hzed & Hint & Hinput).
    + congruence.
    + rewrite (main_dispatch_nonInteractive L w n Hl Hint Hzed),
        main_nonInteractive_run in Hexit. cbv zeta in Hexit.
      rewrite Hinput in Hexit. discriminate.
Qed.

(** Listing the extensions exits without cleanup. *)
Lemma exit_cleanup_only_after_pipeline_sample :
  EvRunExitCleanup
  ∉ events (main_dispatch "oauth-personal" world_list_extensions 0).
Proof.
  apply (exit_cleanup_only_after_pipeline "oauth-personal"
           world_list_extensions 0).
  left. reflexivity.
Defined.

(* ================================================================== *)
(** ** More on the bootstrap part *)
(* ================================================================== *)

(** X17. The pre-sandbox authentication either returns or exits with
    status 1, and spawns nothing. It does nothing at all when no method
    is selected, when the selected method is the empty string, or when
    authentication is delegated externally. The refresh is attempted
    only for the selected method and only after its validation reported
    no error, where an empty error string counts as no error. *)
Theorem main_authenticate_cases (w : World) (n : nat) :
  spawned (main_authenticate w n) = n
  ∧ (outcome (main_authenticate w n) = Ret tt
     ∨ outcome (main_authenticate w n) = Exit 1)
  ∧ (auth_selectedType w = None ∨ auth_selectedType w = Some EmptyString
     ∨ JS.truthy_opt_bool (auth_useExternal w) = true →
     main_authenticate w n = mkRun (Ret tt) [] n)
  ∧ (∀ t, EvRefreshAuth t ∈ events (main_authenticate w n) →
          auth_selectedType w = Some t
          ∧ JS.truthy_opt_string (validateAuthMethod w t) = false)
  ∧ (∀ t, auth_required w = Some t →
          validateAuthMethod w t = Some EmptyString →
          EvRefreshAuth t ∈ events (main_authenticate w n)).
Proof.
  rewrite main_authenticate_run.
  split; [|split; [|split; [|split]]].
  - destruct (auth_required w) as [t|]; [|reflexivity].
    destruct (auth_failure w t); reflexivity.
  - destruct (auth_required w) as [t|]; [|left; reflexivity].
    destruct (auth_failure w t); [right|left]; reflexivity.
  - intros H. replace (auth_required w) with (@None string); [reflexivity|].
    unfold auth_required.
    destruct H as [->|[->|H]]; [reflexivity|reflexivity|].
    rewrite H. destruct (auth_selectedType w); [|reflexivity].
    rewrite andb_false_r. reflexivity.
  - intros t. unfold auth_required, auth_failure, authenticate_events.
    destruct (auth_selectedType w) as [t'|]; [|cbn [events]; solve_elem].
    destruct (JS.truthy_string t'
              && negb (JS.truthy_opt_bool (auth_useExternal w)));
      [|cbn [events]; solve_elem].
    destruct (JS.truthy_opt_string (validateAuthMethod w t')) eqn:Hv.
    + destruct (validateAuthMethod w t'); cbn [events app]; solve_elem.
    + destruct (refreshAuth_throws w t'); cbn [events app]; solve_elem.
  - intros t Hreq Hval. rewrite Hreq. unfold auth_failure, authenticate_events.
    rewrite Hval. cbn [JS.truthy_opt_string]. unfold JS.truthy_opt_string.
    change (JS.truthy_string EmptyString) with false.
    destruct (refreshAuth_throws w t); cbn [events app]; solve_elem.
Qed.

Lemma main_authenticate_cases_sample :
  EvRefreshAuth "oauth-personal" ∈ events (main_authenticate world_login 0).
Proof.
  apply (main_authenticate_cases world_login 0); reflexivity.
Defined.

(** X18. Configuration problems never stop the start-up: the
    configuration step always returns and spawns nothing, sets the DNS
    result order exactly once (to ["verbatim"] only when the settings
    say so), and prints one warning for an invalid DNS order and one
    for a theme the manager does not know, and no other warning. An
    absent or empty theme name is not looked up. *)
Theorem main_configure_warns (w : World) (n : nat) :
  outcome (main_configure w n) = Ret tt
  ∧ spawned (main_configure w n) = n
  ∧ occurrences is_console_warn (events (main_configure w n))
    = ((if dns_order_invalid w then 1 else 0)
       + (if theme_unknown w then 1 else 0))%nat
  ∧ occurrences
      (λ e, match e with EvDnsSetDefaultResultOrder _ => true | _ => false end)
      (events (main_configure w n)) = 1%nat
  ∧ (EvDnsSetDefaultResultOrder verbatim ∈ events (main_configure w n)
     ↔ advanced_dnsResolutionOrder w = Some "verbatim")
  ∧ (ui_theme w = None ∨ ui_theme w = Some EmptyString →
     ∀ name, EvSetActiveTheme name ∉ events (main_configure w n)).
Proof.
  unfold main_configure, validateDnsResolutionOrder, when,
    dns_order_invalid, theme_unknown.
  destruct (advanced_dnsResolutionOrder w) as [order|];
    [destruct (String.eqb order "ipv4first") eqn:H4;
     [|destruct (String.eqb order "verbatim") eqn:Hv]|];
    try (apply String.eqb_eq in H4; subst order);
    try (apply String.eqb_eq in Hv; subst order);
    try apply String.eqb_neq in H4; try apply String.eqb_neq in Hv;
    (destruct (ui_theme w) as [theme|];
     [destruct (JS.truthy_string theme) eqn:Ht;
      [destruct (theme_setActiveTheme w theme)|]|]);
    run_proc; cbn [negb andb];
    (split; [reflexivity|]); (split; [reflexivity|]);
    (split; [reflexivity|]); (split; [reflexivity|]);
    (split; [solve_elem|]);
    intros [H|H]; try discriminate; intros name;
    try (injection H as ->; discriminate); solve_elem.
Qed.

Lemma main_configure_warns_sample :
  occurrences is_console_warn (events (main_configure world_login 0)) = 2%nat.
Proof.
  destruct (main_configure_warns world_login 0) as (_ & _ & H & _).
  rewrite H. reflexivity.
Defined.

Lemma occurrences_app p l1 l2 :
  occurrences p (l1 ++ l2) = (occurrences p l1 + occurrences p l2)%nat.
Proof.
  induction l1 as [|e l1 IH]; [reflexivity|]. cbn. rewrite IH. lia.
Qed.

Lemma main_dispatch_stdin_once L w n :
  (occurrences is_read_stdin (events (main_dispatch L w n)) ≤ 1)%nat.
Proof.
  dispatch_cases L w n.
  - cbn [events]. rewrite !occurrences_app.
    rewrite (occurrences_none is_read_stdin (map _ _))
      by (apply Forall_map, Forall_forall; reflexivity).
    cbn. lia.
  - repeat destruct_cond; run_proc; cbn; lia.
  - cbn [negb andb]. destruct (kitty_detection w) as [[|]|];
      repeat destruct_cond; run_proc; cbn; lia.
  - cbv zeta. unfold prepend.
    destruct (stdin_isTTY w); repeat destruct_cond;
      cbn [outcome events spawned app]; cbn; lia.
Qed.

Lemma configure_not_stdin e : is_configure e = true → is_read_stdin e = false.
Proof. destruct e; (discriminate || reflexivity). Qed.

Lemma memory_not_stdin e :
  is_memory_probe e = true ∨ (∃ m, e = EvConsoleDebug m) →
  is_read_stdin e = false.
Proof.
  intros [H|[m ->]]; [destruct e; (discriminate || reflexivity)|reflexivity].
Qed.

(** X19. Standard input is read at most once per process. Without the
    SANDBOX marker (the relaunch helpers being those of the
    specification) only the sandbox branch reads it, once, before the
    first launch; with the marker only the one-shot path does. *)
Theorem stdin_read_at_most_once (L : string) (sentinel : Z) (fuel : nat)
    (w : World) (n : nat) :
  (occurrences is_read_stdin (events (program L sentinel fuel w n)) ≤ 1)%nat
  ∧ (JS.truthy_opt_string (env_SANDBOX w) = false → sandboxConfig w = None →
     occurrences is_read_stdin (events (program L sentinel fuel w n)) = 0%nat).
Proof.
  destruct (guard_fires w) eqn:Hg.
  { rewrite program_guard by exact Hg. cbn. split; [lia|reflexivity]. }
  destruct (JS.truthy_opt_string (env_SANDBOX w)) eqn:Hs.
  - split; [|discriminate]. unfold program.
    rewrite (main_marker_run L _ _ w n Hs Hg). unfold prepend. cbn [events].
    rewrite !occurrences_app.
    destruct (main_configure_run w n) as (C & -> & HC). cbn [events].
    rewrite (occurrences_none is_read_stdin C)
      by (eapply Forall_impl; [exact HC|apply configure_not_stdin]).
    pose proof (main_dispatch_stdin_once L w n). cbn. lia.
  - destruct (program_run L sentinel fuel w n Hs Hg)
      as (C & M & memoryArgs & HC & HM & _ & _ & _ & ->).
    unfold prepend. cbn [events]. rewrite !occurrences_app.
    rewrite (occurrences_none is_read_stdin C)
      by (eapply Forall_impl; [exact HC|apply configure_not_stdin]).
    rewrite (occurrences_none is_read_stdin M)
      by (eapply Forall_impl; [exact HM|apply memory_not_stdin]).
    assert (Hloop : ∀ e, is_read_stdin e = false →
              occurrences is_read_stdin
                (events (Relaunch.relaunchOnExitCode sentinel fuel
                           (spawn w e) n)) = 0%nat).
    { intros e He. apply occurrences_none, relaunch_Forall;
        [exact He|reflexivity]. }
    destruct (sandboxConfig w) as [cfg|].
    + split; [|discriminate]. rewrite main_sandbox_run. cbv zeta.
      unfold authenticate_events.
      destruct (auth_required w) as [t|];
        [destruct (auth_failure w t) as [err|]|];
        destruct (stdin_isTTY w);
        try destruct (JS.truthy_opt_string (validateAuthMethod w t));
        unfold prepend; cbn [events app occurrences is_read_stdin];
        rewrite ?Hloop by reflexivity; cbn; lia.
    + rewrite Hloop by reflexivity. cbn. split; [lia|reflexivity].
Qed.

Lemma stdin_read_at_most_once_sample :
  occurrences is_read_stdin (events (sample_run world_plain)) = 0%nat.
Proof.
  apply (stdin_read_at_most_once "oauth-personal" 42 10 world_plain 0);
    reflexivity.
Defined.

(** Every launch of the sandbox in one run is the same launch. *)
Lemma program_sandbox_launches L sentinel fuel w n cfg :
  JS.truthy_opt_string (env_SANDBOX w) = false →
  sandboxConfig w = Some cfg →
  ∃ memoryArgs,
    Forall (λ e, ∀ c m a, e = EvStartSandbox c m a →
                   c = cfg ∧ m = memoryArgs
                   ∧ a = injectStdinIntoArgs (process_argv w)
                           (Some (captured_stdin w)))
      (events (program L sentinel fuel w n)).
Proof.
  intros Hs Hcfg. destruct (guard_fires w) eqn:Hg.
  { exists []. rewrite program_guard by exact Hg. cbn [events app].
    repeat (apply Forall_cons; split; [discriminate|]). apply Forall_nil_2. }
  destruct (program_run L sentinel fuel w n Hs Hg)
    as (C & M & memoryArgs & HC & HM & _ & _ & _ & ->).
  exists memoryArgs. rewrite Hcfg. unfold prepend. cbn [events].
  apply Forall_app. split.
  - eapply Forall_impl; [apply (bootstrap_prefix_no_spawn C M HC HM)|].
    intros e He c m a ->. discriminate.
  - rewrite main_sandbox_run. cbv zeta. unfold authenticate_events.
    destruct (auth_required w) as [t|];
      [destruct (auth_failure w t) as [err|]|];
      destruct (stdin_isTTY w);
      try destruct (JS.truthy_opt_string (validateAuthMethod w t));
      unfold prepend; cbn [events app];
      repeat (apply Forall_cons; split; [discriminate|]);
      try apply Forall_nil_2;
      (apply relaunch_Forall; [|discriminate]);
      intros c m a H; injection H as <- <- <-; auto.
Qed.

(** X20. In one run every launch of the sandbox carries the same
    configuration, the same memory flags and the same argument vector,
    namely [process.argv] with the captured standard input injected.
    When standard input is a terminal, or the piped text is empty, the
    child gets [process.argv] unchanged; a non-empty piped text reaches
    it as the beginning of the value of a prompt flag. *)
Theorem sandbox_launch_arguments (L : string) (sentinel : Z) (fuel : nat)
    (w : World) (n : nat) (cfg : SandboxConfig) :
  JS.truthy_opt_string (env_SANDBOX w) = false →
  sandboxConfig w = Some cfg →
  (∀ c m a c' m' a',
     EvStartSandbox c m a ∈ events (program L sentinel fuel w n) →
     EvStartSandbox c' m' a' ∈ events (program L sentinel fuel w n) →
     c = cfg ∧ c' = cfg ∧ m = m' ∧ a = a'
     ∧ a = injectStdinIntoArgs (process_argv w) (Some (captured_stdin w)))
  ∧ (stdin_isTTY w = true ∨ stdin_text w = EmptyString →
     injectStdinIntoArgs (process_argv w) (Some (captured_stdin w))
     = process_argv w)
  ∧ (stdin_isTTY w = false → stdin_text w ≠ EmptyString →
     ∃ j flag v,
       injectStdinIntoArgs (process_argv w) (Some (captured_stdin w)) !! j
       = Some flag
       ∧ is_prompt_flag flag
       ∧ injectStdinIntoArgs (process_argv w) (Some (captured_stdin w)) !! S j
         = Some v
       ∧ starts_with (stdin_text w) v).
Proof.
  intros Hs Hcfg. split; [|split].
  - destruct (program_sandbox_launches L sentinel fuel w n cfg Hs Hcfg)
      as (memoryArgs & Hall).
    rewrite Forall_forall in Hall.
    intros c m a c' m' a' Hin Hin'.
    destruct (Hall _ Hin c m a eq_refl) as (-> & -> & ->).
    destruct (Hall _ Hin' c' m' a' eq_refl) as (-> & -> & ->).
    repeat split.
  - unfold captured_stdin. intros [->| Hempty]; [reflexivity|].
    rewrite Hempty. destruct (stdin_isTTY w); reflexivity.
  - intros Htty Htext. unfold captured_stdin. rewrite Htty.
    apply injectStdinIntoArgs_flag_value, Htext.
Qed.

Lemma sandbox_launch_arguments_sample :
  ∃ j flag v,
    injectStdinIntoArgs ["node"; "cli.js"] (Some "ctx") !! j = Some flag
    ∧ is_prompt_flag flag
    ∧ injectStdinIntoArgs ["node"; "cli.js"] (Some "ctx") !! S j = Some v
    ∧ starts_with "ctx" v.
Proof.
  apply (sandbox_launch_arguments "oauth-personal" 42 10 world_sandbox 0
           sample_sandbox); [reflexivity|reflexivity|reflexivity|discriminate].
Defined.

(** The invalid order of the sample settings is answered with the
    default, which the validator accepts silently. *)
Lemma validateDnsResolutionOrder_idempotent_sample :
  ∃ o evs,
    validateDnsResolutionOrder (Some "bogus") 0 = mkRun (Ret o) evs 0
    ∧ validateDnsResolutionOrder (Some (DnsResolutionOrder_to_string o)) 0
      = mkRun (Ret o) [] 0
    ∧ (evs ≠ [] ↔ ∃ s, Some "bogus" = Some s
                       ∧ s ≠ "ipv4first" ∧ s ≠ "verbatim").
Proof.
  apply (validateDnsResolutionOrder_idempotent (Some "bogus") 0).
Defined.
